(** * check-and-notify: the overdue-document notifier

    A shallow embedding of [check-and-notify.py] and the properties of its
    overdue selector, message builder and main loop.

    Conventions of the embedding.
    - A Python [str] is the Rocq [string] of its UTF-8 bytes (a lone
      surrogate encoded like any other code point); where Python works on
      characters (iterating or indexing a string, the digits of a date)
      the model decodes them.
    - A parsed JSON document is a [json] tree; a Python [dict] is an
      association list in insertion order, read at its first binding.
    - A Python exception is a [Raise] outcome; [try]/[except] is [catch].
    - Every function that logs or talks to the outside world runs in the
      monad [M], which collects the events in program order.
    - Library functions whose text is not part of the program ([int] on a
      string, [str] on a value, [urlparse]) are Section variables. *)

From Stdlib Require Import List ZArith Lia Bool Ascii String Sorting.Sorted.
From Stdlib Require Import Sorting.Permutation.
From Stdlib Require Import Floats.SpecFloat DecimalString.
Import ListNotations.

Open Scope string_scope.
Open Scope Z_scope.
Open Scope list_scope.

(* ------------------------------------------------------------------ *)
(** ** Parsed JSON values and the Python operations used on them *)

#[warnings="-register-all"]
Inductive json : Type :=
| JNull
| JBool (b : bool)
| JInt (n : Z)
| JFloat (f : spec_float)
| JStr (s : string)
| JArr (items : list json)
| JObj (fields : list (string * json)).

(** Python truth value of a parsed JSON value ([if x:]). *)
Definition truthy (v : json) : bool :=
  match v with
  | JNull => false
  | JBool b => b
  | JInt n => negb (n =? 0)
  | JFloat (S754_zero _) => false
  | JFloat _ => true
  | JStr s => negb (String.eqb s "")
  | JArr items => match items with [] => false | _ :: _ => true end
  | JObj fields => match fields with [] => false | _ :: _ => true end
  end.

Fixpoint dict_get (k : string) (d : list (string * json)) : option json :=
  match d with
  | [] => None
  | (k', v) :: rest => if String.eqb k k' then Some v else dict_get k rest
  end.

(** [d[k] = v]: an existing key keeps its place, a new key goes last. *)
Fixpoint dict_set (k : string) (v : json) (d : list (string * json))
  : list (string * json) :=
  match d with
  | [] => [(k, v)]
  | (k', v') :: rest =>
      if String.eqb k k' then (k', v) :: rest else (k', v') :: dict_set k v rest
  end.

Inductive exn : Type :=
| TypeError | AttributeError | ValueError | KeyError | IndexError | OSError.

Inductive result (A : Type) : Type :=
| Ok (a : A)
| Raise (e : exn).
Arguments Ok {A} a.
Arguments Raise {A} e.

Definition byte (c : ascii) : Z := Z.of_nat (nat_of_ascii c).

(** A byte [10xxxxxx], which goes on with the character before it. *)
Definition continuation (c : ascii) : bool :=
  (128 <=? byte c) && (byte c <? 192).

(** The characters of a string, each as the string of its own bytes: a
    byte that is not a continuation byte starts a character and the
    continuation bytes after it belong to it. *)
Fixpoint utf8_chars (s : string) : list string :=
  match s with
  | EmptyString => []
  | String c rest =>
      match rest with
      | EmptyString => [String c ""]
      | String c' _ =>
          if continuation c'
          then match utf8_chars rest with
               | x :: xs => String c x :: xs
               | [] => [String c ""]
               end
          else String c "" :: utf8_chars rest
      end
  end.

(** [for x in v]: the items of a list, the keys of a dict, the characters
    of a string; anything else is not iterable. *)
Definition py_iter (v : json) : result (list json) :=
  match v with
  | JArr items => Ok items
  | JObj fields => Ok (map (fun kv => JStr (fst kv)) fields)
  | JStr s => Ok (map JStr (utf8_chars s))
  | _ => Raise TypeError
  end.

(** [doc.get(k)]: only a dict has the method; a missing key reads [None]. *)
Definition doc_get (k : string) (doc : json) : result json :=
  match doc with
  | JObj fields =>
      Ok (match dict_get k fields with Some v => v | None => JNull end)
  | _ => Raise AttributeError
  end.

(** [lst[:k]] with Python's treatment of a negative or oversized bound. *)
Definition slice_to {A : Type} (k : Z) (l : list A) : list A :=
  if k <? 0 then firstn (Z.to_nat (Z.max 0 (Z.of_nat (List.length l) + k))) l
  else firstn (Z.to_nat k) l.

(* ------------------------------------------------------------------ *)
(** ** Calendar dates: [datetime], [strptime] and [timedelta] *)

Record datetime : Type := mk_datetime {
  year : Z; month : Z; day : Z;
  hour : Z; minute : Z; second : Z; microsecond : Z
}.

Definition is_leap (y : Z) : bool :=
  (y mod 4 =? 0) && (negb (y mod 100 =? 0) || (y mod 400 =? 0)).

Definition days_before_year (y : Z) : Z :=
  let p := y - 1 in p * 365 + p / 4 - p / 100 + p / 400.

Definition DAYS_IN_MONTH : list Z :=
  [-1; 31; 28; 31; 30; 31; 30; 31; 31; 30; 31; 30; 31].

Definition DAYS_BEFORE_MONTH : list Z :=
  [-1; 0; 31; 59; 90; 120; 151; 181; 212; 243; 273; 304; 334].

Definition days_in_month (y m : Z) : Z :=
  if (m =? 2) && is_leap y then 29 else nth (Z.to_nat m) DAYS_IN_MONTH 0.

Definition days_before_month (y m : Z) : Z :=
  nth (Z.to_nat m) DAYS_BEFORE_MONTH 0
  + (if (m >? 2) && is_leap y then 1 else 0).

Definition ymd2ord (y m d : Z) : Z :=
  days_before_year y + days_before_month y m + d.

Definition toordinal (t : datetime) : Z := ymd2ord (year t) (month t) (day t).

(** The range check of the [date] constructor. *)
Definition check_date_fields (y m d : Z) : bool :=
  (1 <=? y) && (y <=? 9999) && (1 <=? m) && (m <=? 12)
  && (1 <=? d) && (d <=? days_in_month y m).

Definition check_time_fields (t : datetime) : bool :=
  (0 <=? hour t) && (hour t <=? 23) && (0 <=? minute t) && (minute t <=? 59)
  && (0 <=? second t) && (second t <=? 59)
  && (0 <=? microsecond t) && (microsecond t <=? 999999).

(** A value [datetime.now()] can return. *)
Definition valid_datetime (t : datetime) : bool :=
  check_date_fields (year t) (month t) (day t) && check_time_fields t.

(** The classes written with ASCII digits ([[0-2]], [[1-9]], ...) take
    ASCII digits only. *)
Definition is_digit (c : ascii) : bool :=
  (48 <=? nat_of_ascii c)%nat && (nat_of_ascii c <=? 57)%nat.

Definition digit (c : ascii) : Z := Z.of_nat (nat_of_ascii c) - 48.

Definition in_range (lo hi : Z) (c : ascii) : bool :=
  is_digit c && (lo <=? digit c) && (digit c <=? hi).

Definition orelse {A : Type} (a b : option A) : option A :=
  match a with Some _ => a | None => b end.

(** The code point at the head of a string of UTF-8 bytes, and the rest. *)
Definition decode_char (s : string) : option (Z * string) :=
  match s with
  | EmptyString => None
  | String a r1 =>
      let b0 := byte a in
      if b0 <? 128 then Some (b0, r1)
      else if b0 <? 194 then None
      else if b0 <? 224 then
        match r1 with
        | String b r2 =>
            if continuation b
            then Some ((b0 - 192) * 64 + (byte b - 128), r2)
            else None
        | _ => None
        end
      else if b0 <? 240 then
        match r1 with
        | String b (String c r3) =>
            let cp := (b0 - 224) * 4096 + (byte b - 128) * 64
                      + (byte c - 128) in
            if continuation b && continuation c && (2048 <=? cp)
            then Some (cp, r3)
            else None
        | _ => None
        end
      else if b0 <? 245 then
        match r1 with
        | String b (String c (String d r4)) =>
            let cp := (b0 - 240) * 262144 + (byte b - 128) * 4096
                      + (byte c - 128) * 64 + (byte d - 128) in
            if continuation b && continuation c && continuation d
               && (65536 <=? cp) && (cp <=? 1114111)
            then Some (cp, r4)
            else None
        | _ => None
        end
      else None
  end.

(** The decimal digits of Unicode 14.0 (general category Nd, the
    characters [\d] matches and [int] reads, as in Python 3.11): 66 runs
    of ten consecutive code points, each run the digits 0 to 9 of one
    script. The list holds the zero of each run. *)
Definition decimal_zeros : list Z :=
  [48; 1632; 1776; 1984; 2406; 2534; 2662; 2790; 2918; 3046; 3174; 3302;
   3430; 3558; 3664; 3792; 3872; 4160; 4240; 6112; 6160; 6470; 6608; 6784;
   6800; 6992; 7088; 7232; 7248; 42528; 43216; 43264; 43472; 43504; 43600;
   44016; 65296; 66720; 68912; 69734; 69872; 69942; 70096; 70384; 70736;
   70864; 71248; 71360; 71472; 71904; 72016; 72784; 73040; 73120; 92768;
   92864; 93008; 120782; 120792; 120802; 120812; 120822; 123200; 123632;
   125264; 130032].

Definition decimal_value (cp : Z) : option Z :=
  match find (fun zero => (zero <=? cp) && (cp <? zero + 10)) decimal_zeros with
  | Some zero => Some (cp - zero)
  | None => None
  end.

(** [\d]: one character that is a decimal digit; its value and the rest. *)
Definition unicode_digit (s : string) : option (Z * string) :=
  match decode_char s with
  | Some (cp, rest) =>
      match decimal_value cp with
      | Some v => Some (v, rest)
      | None => None
      end
  | None => None
  end.

(** [%Y] is [\d\d\d\d]. *)
Definition match_year (s : string) : option (Z * string) :=
  match unicode_digit s with
  | Some (a, s1) =>
      match unicode_digit s1 with
      | Some (b, s2) =>
          match unicode_digit s2 with
          | Some (c, s3) =>
              match unicode_digit s3 with
              | Some (d, rest) =>
                  Some (a * 1000 + b * 100 + c * 10 + d, rest)
              | None => None
              end
          | None => None
          end
      | None => None
      end
  | None => None
  end.

(** [%d] is [3[0-1]|[1-2]\d|0[1-9]|[1-9]| [1-9]], tried left to right. *)
Definition match_day (s : string) : option (Z * string) :=
  orelse
    match s with
    | String a (String b rest) =>
        if Ascii.eqb a "3" && in_range 0 1 b then Some (30 + digit b, rest)
        else if in_range 1 2 a
             then match unicode_digit (String b rest) with
                  | Some (v, rest') => Some (digit a * 10 + v, rest')
                  | None => None
                  end
        else if Ascii.eqb a "0" && in_range 1 9 b then Some (digit b, rest)
        else None
    | _ => None
    end
    (orelse
       match s with
       | String a rest => if in_range 1 9 a then Some (digit a, rest) else None
       | _ => None
       end
       match s with
       | String a (String b rest) =>
           if Ascii.eqb a " " && in_range 1 9 b then Some (digit b, rest)
           else None
       | _ => None
       end).

Definition match_dash_day (s : string) : option (Z * string) :=
  match s with
  | String c rest => if Ascii.eqb c "-" then match_day rest else None
  | _ => None
  end.

(** [%m] is [1[0-2]|0[1-9]|[1-9]]; an alternative is kept only if the rest
    of the pattern matches after it. *)
Definition match_month_day (s : string) : option (Z * Z * string) :=
  let continue (m : Z) (rest : string) :=
    match match_dash_day rest with
    | Some (d, rest') => Some (m, d, rest')
    | None => None
    end in
  orelse
    match s with
    | String a (String b rest) =>
        if Ascii.eqb a "1" && in_range 0 2 b then continue (10 + digit b) rest
        else None
    | _ => None
    end
    (orelse
       match s with
       | String a (String b rest) =>
           if Ascii.eqb a "0" && in_range 1 9 b then continue (digit b) rest
           else None
       | _ => None
       end
       match s with
       | String a rest => if in_range 1 9 a then continue (digit a) rest else None
       | _ => None
       end).

(** The regular expression of the format ['%Y-%m-%d'], matched at the start
    of the string: the three numbers and the unconsumed rest. *)
Definition match_ymd (s : string) : option (Z * Z * Z * string) :=
  match match_year s with
  | Some (y, rest) =>
      match rest with
      | String c rest' =>
          if Ascii.eqb c "-" then
            match match_month_day rest' with
            | Some (m, d, rest'') => Some (y, m, d, rest'')
            | None => None
            end
          else None
      | _ => None
      end
  | None => None
  end.

(** [datetime.strptime(v, '%Y-%m-%d')]. *)
Definition strptime (v : json) : result datetime :=
  match v with
  | JStr s =>
      match match_ymd s with
      | Some (y, m, d, rest) =>
          if negb (String.eqb rest "") then Raise ValueError
          else if check_date_fields y m d
               then Ok (mk_datetime y m d 0 0 0 0)
               else Raise ValueError
      | None => Raise ValueError
      end
  | _ => Raise TypeError
  end.

Record timedelta : Type := mk_timedelta {
  days : Z; seconds : Z; microseconds : Z
}.

(** The constructor [timedelta(days, seconds, microseconds)] on integers:
    the seconds and the microseconds are carried into the days. *)
Definition new_timedelta (days0 seconds0 microseconds0 : Z) : timedelta :=
  let d := days0 in
  let d := d + seconds0 / 86400 in
  let s := seconds0 mod 86400 in
  let secs := microseconds0 / 1000000 in
  let us := microseconds0 mod 1000000 in
  let d := d + secs / 86400 in
  let s := s + secs mod 86400 in
  let s := s + us / 1000000 in
  let us := us mod 1000000 in
  let d := d + s / 86400 in
  let s := s mod 86400 in
  mk_timedelta d s us.

(** [a - b] on two naive datetimes. *)
Definition datetime_sub (a b : datetime) : timedelta :=
  let secs1 := second a + minute a * 60 + hour a * 3600 in
  let secs2 := second b + minute b * 60 + hour b * 3600 in
  new_timedelta (toordinal a - toordinal b) (secs1 - secs2)
                (microsecond a - microsecond b).

(* ------------------------------------------------------------------ *)
(** ** Configuration, overdue entries, events and the monad [M] *)

(** The module-level settings once start-up has succeeded. [max_docs] is
    the value of [int(max_docs)], which the start-up check has evaluated
    without an exception. *)
Record settings : Type := mk_settings {
  max_docs : Z;
  page_list_filename : string;
  slack_webhook_url : string
}.

(** The dict [{'title': ..., 'url': ..., 'days_overdue': ...}]. *)
Record entry : Type := mk_entry {
  title : json;
  url : json;
  days_overdue : Z
}.

Inductive level : Type := DEBUG | INFO | WARNING | ERROR.

(** The log calls of the program, one constructor per call site. *)
Inductive message : Type :=
| MaxDocsToBeReturned (n : Z)
| MaxDocsNotAnInteger
| FailedToFetch (u : json)
| FailedToFetchStatus (u : json) (status : Z)
| EmptyJsonData (u : json)
| InvalidJson (u : json)
| CouldNotLoadOrParse (filename : string)
| CouldNotParseReviewAgain (review u : json)
| CouldNotBuildMessage (e : exn)
| CouldNotLoadTemplate
| DumpOfMessage (m : json)
| OverdueDocuments (docs : list entry)
| NotificationSent
| CouldNotSendMessage
| PagesKeyMissing.

Inductive event : Type :=
| Log (lvl : level) (msg : message)
| OpenFile (filename : string)
| HttpGet (u : json)
| HttpPost (webhook : string) (body : json).

(** A computation: the events it performed, then its value or the
    exception that ended it. *)
Definition M (A : Type) : Type := (list event * result A)%type.

Definition ret {A : Type} (a : A) : M A := ([], Ok a).
Definition raise {A : Type} (e : exn) : M A := ([], Raise e).
Definition emit (ev : event) : M unit := ([ev], Ok tt).
Definition lift {A : Type} (r : result A) : M A := ([], r).

Definition bind {A B : Type} (m : M A) (f : A -> M B) : M B :=
  match m with
  | (t, Ok a) => let (t', r) := f a in (t ++ t', r)
  | (t, Raise e) => (t, Raise e)
  end.

(** [try: m  except Exception as e: h e]. *)
Definition catch {A : Type} (m : M A) (h : exn -> M A) : M A :=
  match m with
  | (t, Ok a) => (t, Ok a)
  | (t, Raise e) => let (t', r) := h e in (t ++ t', r)
  end.

Definition trace {A : Type} (m : M A) : list event := fst m.
Definition outcome {A : Type} (m : M A) : result A := snd m.

Declare Scope monad_scope.
Delimit Scope monad_scope with monad.
Notation "x <- m ;; k" := (bind m (fun x => k))
  (at level 61, m at next level, right associativity) : monad_scope.
Notation "m ;; k" := (bind m (fun _ => k))
  (at level 61, right associativity) : monad_scope.
Open Scope monad_scope.

(* ------------------------------------------------------------------ *)
(** ** The overdue selector *)

(** The body of [for doc in doc_list]. [now] is what [datetime.now()]
    returns if this record reaches it. *)
Definition examine (now : datetime) (doc : json) (out_of_date_docs : list entry)
  : M (list entry) :=
  title <- lift (doc_get "title" doc) ;;
  url <- lift (doc_get "url" doc) ;;
  review_again_str <- lift (doc_get "reviewAgain" doc) ;;
  if truthy review_again_str && truthy url then
    catch
      (review_again_date <- lift (strptime review_again_str) ;;
       let days_overdue := days (datetime_sub now review_again_date) in
       if days_overdue >? 0
       then ret (out_of_date_docs ++ [mk_entry title url days_overdue])
       else ret out_of_date_docs)
      (fun _ =>
         emit (Log WARNING (CouldNotParseReviewAgain review_again_str url)) ;;
         ret out_of_date_docs)
  else ret out_of_date_docs.

(** The loop. [now_at i] is the clock reading available to the record at
    position [i]; each record reads the clock at most once. *)
Fixpoint examine_all (now_at : nat -> datetime) (i : nat) (docs : list json)
  (out_of_date_docs : list entry) : M (list entry) :=
  match docs with
  | [] => ret out_of_date_docs
  | doc :: rest =>
      out <- examine (now_at i) doc out_of_date_docs ;;
      examine_all now_at (S i) rest out
  end.

(** [list.sort(key=lambda x: x['days_overdue'], reverse=True)]: the stable
    sort, largest key first. An element goes in front of the first element
    to its right whose key is not larger. *)
Fixpoint insert_desc (e : entry) (l : list entry) : list entry :=
  match l with
  | [] => [e]
  | x :: rest =>
      if days_overdue e <? days_overdue x then x :: insert_desc e rest
      else e :: l
  end.

Definition sort_desc (l : list entry) : list entry :=
  fold_right insert_desc [] l.

Definition get_out_of_date_docs (cfg : settings) (now_at : nat -> datetime)
  (doc_list : json) : M (list entry) :=
  docs <- lift (py_iter doc_list) ;;
  out_of_date_docs <- examine_all now_at 0 docs [] ;;
  let out_of_date_docs := sort_desc out_of_date_docs in
  ret (slice_to
         (if max_docs cfg >? 0 then max_docs cfg
          else Z.of_nat (List.length out_of_date_docs))
         out_of_date_docs).

(* ------------------------------------------------------------------ *)
(** ** The outside world *)

(** What [response.json()] does on a fetched body: it returns the decoded
    value or raises [JSONDecodeError], which is a [json.JSONDecodeError]
    with the [json] module of the standard library. *)
Inductive json_outcome : Type :=
| Parsed (data : json)
| JSONDecodeError.

(** What [requests.get] does: it raises, or it returns a response. *)
Inductive get_outcome : Type :=
| GetRaised
| Response (status_code : Z) (body : json_outcome).

(** What [open] followed by [json.load] does on a file. *)
Inductive file_outcome : Type :=
| FileJson (data : json)
| FileNotFoundError
| FileJSONDecodeError
| FileOtherError.

(** What [requests.post] does. *)
Inductive post_outcome : Type :=
| PostRaised
| PostResponse (status_code : Z).

(** One run's answers from the environment. The first index is the
    position of the inventory URL in the page list; [clock i j] is the
    clock reading available to record [j] of inventory [i]. *)
Record world : Type := mk_world {
  page_list_file : file_outcome;
  http_get : nat -> json -> get_outcome;
  clock : nat -> nat -> datetime;
  template_file : nat -> file_outcome;
  http_post : nat -> json -> post_outcome
}.

Definition slack_template_filename : string := "templates/slack_message.json".

Definition get_doc_list (w : world) (i : nat) (url : json) : M (option json) :=
  emit (HttpGet url) ;;
  match http_get w i url with
  | GetRaised => emit (Log WARNING (FailedToFetch url)) ;; ret None
  | Response status_code body =>
      if status_code =? 200 then
        match body with
        | Parsed data =>
            if truthy data then ret (Some data)
            else emit (Log WARNING (EmptyJsonData url)) ;; ret None
        | JSONDecodeError => emit (Log WARNING (InvalidJson url)) ;; ret None
        end
      else emit (Log WARNING (FailedToFetchStatus url status_code)) ;; ret None
  end.

(** The [except] clause names two exceptions only; any other failure of
    [open] or [json.load] leaves the function as an exception. *)
Definition get_json (f : file_outcome) (filename : string) : M json :=
  emit (OpenFile filename) ;;
  match f with
  | FileJson data => ret data
  | FileNotFoundError | FileJSONDecodeError =>
      emit (Log WARNING (CouldNotLoadOrParse filename)) ;; ret (JArr [])
  | FileOtherError => raise OSError
  end.

(** [v[k]] for a string key. *)
Definition getitem_key (k : string) (v : json) : result json :=
  match v with
  | JObj fields =>
      match dict_get k fields with Some x => Ok x | None => Raise KeyError end
  | _ => Raise TypeError
  end.

(** Python's index normalisation: the position meant by [i] in a sequence
    of [n] items, if there is one. *)
Definition norm_index (i : Z) (n : nat) : option nat :=
  let j := if i <? 0 then i + Z.of_nat n else i in
  if (0 <=? j) && (j <? Z.of_nat n) then Some (Z.to_nat j) else None.

(** [v[i]] for an integer index. The keys of a parsed JSON object are
    strings, so an integer is never among them. *)
Definition getitem_index (i : Z) (v : json) : result json :=
  match v with
  | JArr items =>
      match norm_index i (List.length items) with
      | Some j => Ok (nth j items JNull)
      | None => Raise IndexError
      end
  | JStr s =>
      match norm_index i (List.length (utf8_chars s)) with
      | Some j => Ok (JStr (nth j (utf8_chars s) ""))
      | None => Raise IndexError
      end
  | JObj _ => Raise KeyError
  | _ => Raise TypeError
  end.

Fixpoint list_set {A : Type} (j : nat) (x : A) (l : list A) : list A :=
  match l, j with
  | [], _ => []
  | _ :: rest, O => x :: rest
  | y :: rest, S j' => y :: list_set j' x rest
  end.

(** [template['blocks'][i]['text']['text'] = text]: three reads, then a
    store into the dict they reach. The template tree comes from
    [json.load], so no two places of it share an object and the store shows
    only along the path read. *)
Definition assign_text (i : Z) (text : string) (template : json) : result json :=
  match getitem_key "blocks" template with
  | Raise e => Raise e
  | Ok blocks =>
      match getitem_index i blocks with
      | Raise e => Raise e
      | Ok block =>
          match getitem_key "text" block with
          | Raise e => Raise e
          | Ok inner =>
              match template, blocks, block, inner with
              | JObj tf, JArr items, JObj bf, JObj inf =>
                  match norm_index i (List.length items) with
                  | Some j =>
                      let block' := JObj (dict_set "text"
                                       (JObj (dict_set "text" (JStr text) inf)) bf) in
                      Ok (JObj (dict_set "blocks" (JArr (list_set j block' items)) tf))
                  | None => Raise IndexError
                  end
              | _, _, _, _ => Raise TypeError
              end
          end
      end
  end.

Definition string_of_Z (n : Z) : string := NilZero.string_of_int (Z.to_int n).

Section Notifier.

(** [repr] of a float, a list or a dict. *)
Variable py_repr : json -> string.

(** [urlparse(u)]: the [scheme] and [netloc] of the result. *)
Variable urlparse : json -> result (string * string).

(** [int(s)] on a string; [None] when it raises. *)
Variable py_int : string -> option Z.

(** [str(v)], as an f-string field formats a value. *)
Definition py_str (v : json) : string :=
  match v with
  | JStr s => s
  | JNull => "None"
  | JBool true => "True"
  | JBool false => "False"
  | JInt n => string_of_Z n
  | _ => py_repr v
  end.

Definition header_text (overdue_docs : list entry) : string :=
  let n := Z.of_nat (List.length overdue_docs) in
  (":rocco-docco-quokka: Hello. :paw_prints: This is Rocco, your friendly docco quokka. I've found "
   ++ string_of_Z n ++ " page" ++ (if negb (n =? 1)%Z then "s" else "")
   ++ " overdue for review.")%string.

Definition list_heading_text (cfg : settings) (overdue_docs : list entry)
  : string :=
  let max_docs_int := max_docs cfg in
  ("Here " ++
   (if ((max_docs_int =? 0)
        || (Z.of_nat (List.length overdue_docs) <=? max_docs_int))%Z
    then "is the full list:"
    else "are the top " ++ string_of_Z max_docs_int ++ " oldest:"))%string.

Definition newline : string := String (ascii_of_nat 10) "".

Definition list_line (base_url : string) (doc : entry) : string :=
  ("â€¢ <" ++ base_url ++ py_str (url doc) ++ "|" ++ py_str (title doc)
   ++ "> (" ++ string_of_Z (days_overdue doc) ++ " day"
   ++ (if negb (days_overdue doc =? 1)%Z then "s" else "") ++ " ago)"
   ++ newline)%string.

(** The loop that builds [list_text]; [urlparse] runs once per entry. *)
Fixpoint list_text (pages_url : json) (overdue_docs : list entry)
  (acc : string) : result string :=
  match overdue_docs with
  | [] => Ok acc
  | doc :: rest =>
      match urlparse pages_url with
      | Raise e => Raise e
      | Ok (scheme, netloc) =>
          let base_url := (scheme ++ "://" ++ netloc ++ "/")%string in
          list_text pages_url rest (acc ++ list_line base_url doc)%string
      end
  end.

Definition build_slack_message (w : world) (cfg : settings) (i : nat)
  (overdue_docs : list entry) (pages_url : json) : M (option json) :=
  slack_message_template <-
    get_json (template_file w i) slack_template_filename ;;
  if truthy slack_message_template then
    text <- lift (list_text pages_url overdue_docs "") ;;
    built <-
      catch
        (t1 <- lift (assign_text 0 (header_text overdue_docs)
                       slack_message_template) ;;
         t2 <- lift (assign_text 1 (list_heading_text cfg overdue_docs) t1) ;;
         t3 <- lift (assign_text (-2) text t2) ;;
         ret (Some t3))
        (fun e => emit (Log WARNING (CouldNotBuildMessage e)) ;; ret None) ;;
    match built with
    | Some slack_message =>
        emit (Log DEBUG (DumpOfMessage slack_message)) ;;
        ret (Some slack_message)
    | None => ret None
    end
  else emit (Log WARNING CouldNotLoadTemplate) ;; ret None.

Definition slack_notify (w : world) (cfg : settings) (i : nat)
  (slack_message : json) : M bool :=
  emit (HttpPost (slack_webhook_url cfg) slack_message) ;;
  match http_post w i slack_message with
  | PostRaised => emit (Log ERROR CouldNotSendMessage) ;; ret false
  | PostResponse status_code => ret (status_code =? 200)
  end.

Definition nonempty {A : Type} (l : list A) : bool :=
  match l with [] => false | _ :: _ => true end.

(** The body of [for pages_url in page_list['pages']]. *)
Definition process_url (w : world) (cfg : settings) (i : nat)
  (pages_url : json) : M unit :=
  fetched <- get_doc_list w i pages_url ;;
  match fetched with
  | Some doc_list =>
      if truthy doc_list then
        overdue_docs <- get_out_of_date_docs cfg (clock w i) doc_list ;;
        if nonempty overdue_docs then
          emit (Log INFO (OverdueDocuments overdue_docs)) ;;
          if negb (String.eqb (slack_webhook_url cfg) "") then
            built <- build_slack_message w cfg i overdue_docs pages_url ;;
            match built with
            | Some slack_message =>
                if truthy slack_message then
                  sent <- slack_notify w cfg i slack_message ;;
                  if sent then emit (Log INFO NotificationSent) else ret tt
                else ret tt
            | None => ret tt
            end
          else ret tt
        else ret tt
      else ret tt
  | None => ret tt
  end.

Fixpoint process_urls (w : world) (cfg : settings) (i : nat)
  (urls : list json) : M unit :=
  match urls with
  | [] => ret tt
  | pages_url :: rest =>
      process_url w cfg i pages_url ;; process_urls w cfg (S i) rest
  end.

Definition main (w : world) (cfg : settings) : M unit :=
  page_list <- get_json (page_list_file w) (page_list_filename cfg) ;;
  match page_list with
  | JObj fields =>
      match dict_get "pages" fields with
      | Some pages =>
          urls <- lift (py_iter pages) ;;
          process_urls w cfg 0 urls
      | None => emit (Log WARNING PagesKeyMissing)
      end
  | _ => emit (Log WARNING PagesKeyMissing)
  end.

(** The process environment, as [os.getenv] reads it. *)
Record environ : Type := mk_environ {
  LOG_LEVEL : option string;
  MAX_DOCS : option string;
  PAGE_LIST_FILENAME : option string;
  SLACK_WEBHOOK_URL : option string
}.

Definition getenv (v : option string) (default : string) : string :=
  match v with Some s => s | None => default end.

(** The level names [logging.basicConfig] accepts. *)
Definition known_level (name : string) : bool :=
  existsb (String.eqb name)
    ["CRITICAL"; "FATAL"; "ERROR"; "WARN"; "WARNING"; "INFO"; "DEBUG"; "NOTSET"].

(** [int(max_docs)]: the default is the integer 10, a set variable is a
    string. *)
Definition int_max_docs (env : environ) : option Z :=
  match MAX_DOCS env with
  | None => Some 10
  | Some s => py_int s
  end.

(** The whole script, run as a program: its events and its exit status.
    An exception that nothing catches ends the process with status 1. *)
Definition script (env : environ) (w : world) : list event * Z :=
  if known_level (getenv (LOG_LEVEL env) "INFO") then
    match int_max_docs env with
    | None => ([Log ERROR MaxDocsNotAnInteger], 1)
    | Some n =>
        let cfg := mk_settings n
                     (getenv (PAGE_LIST_FILENAME env) "page-list.json")
                     (getenv (SLACK_WEBHOOK_URL env) "") in
        match main w cfg with
        | (t, Ok _) => (Log INFO (MaxDocsToBeReturned n) :: t, 0)
        | (t, Raise _) => (Log INFO (MaxDocsToBeReturned n) :: t, 1)
        end
    end
  else ([], 1).

End Notifier.

(* ------------------------------------------------------------------ *)
(** ** The selection rule in the words of the specification *)

(** A record is a JSON object; [field k r] is its value at [k], [JNull]
    when the key is missing. *)
Definition field (k : string) (r : list (string * json)) : json :=
  match dict_get k r with Some v => v | None => JNull end.

Definition present (k : string) (r : list (string * json)) : bool :=
  match dict_get k r with Some _ => true | None => false end.

(** The date a [reviewAgain] value stands for, when it is a string in the
    format [YYYY-MM-DD] that names a day of the calendar. *)
Definition calendar_date (v : json) : option datetime :=
  match strptime v with Ok d => Some d | Raise _ => None end.

Definition microseconds_per_day : Z := 86400 * 1000000.

(** Microseconds from the start of the calendar to [t]. *)
Definition instant (t : datetime) : Z :=
  ((toordinal t * 86400 + hour t * 3600 + minute t * 60 + second t) * 1000000
   + microsecond t).

(** [floor((now - d) in whole days)]. *)
Definition whole_days_between (now d : datetime) : Z :=
  (instant now - instant d) / microseconds_per_day.

(** The entry of a record under the rule "[url] and [reviewAgain] are
    present, [reviewAgain] is a calendar date, and the whole-day difference
    is positive". *)
Definition stated_entry (now : datetime) (r : list (string * json))
  : option entry :=
  if present "url" r && present "reviewAgain" r then
    match calendar_date (field "reviewAgain" r) with
    | Some d =>
        if whole_days_between now d >? 0
        then Some (mk_entry (field "title" r) (field "url" r)
                     (whole_days_between now d))
        else None
    | None => None
    end
  else None.

(** The same rule with "[url] is present" read as the program reads it:
    the value is there and is not empty, zero, false or null. *)
Definition qualifying_entry (now : datetime) (r : list (string * json))
  : option entry :=
  if truthy (field "url" r) then
    match calendar_date (field "reviewAgain" r) with
    | Some d =>
        if whole_days_between now d >? 0
        then Some (mk_entry (field "title" r) (field "url" r)
                     (whole_days_between now d))
        else None
    | None => None
    end
  else None.

Definition option_list {A : Type} (o : option A) : list A :=
  match o with Some a => [a] | None => [] end.

(** The qualifying set, in input order; the record at position [i] is
    judged at the clock reading [now_at i]. *)
Fixpoint qualifying (now_at : nat -> datetime) (i : nat)
  (records : list (list (string * json))) : list entry :=
  match records with
  | [] => []
  | r :: rest =>
      option_list (qualifying_entry (now_at i) r) ++ qualifying now_at (S i) rest
  end.

(** Largest day count first. *)
Definition descending (l : list entry) : Prop :=
  StronglySorted (fun a b => days_overdue b <= days_overdue a) l.

Definition with_days (k : Z) (l : list entry) : list entry :=
  filter (fun e => days_overdue e =? k) l.

Inductive prefix {A : Type} : list A -> list A -> Prop :=
| prefix_nil : forall l, prefix [] l
| prefix_cons : forall x l l', prefix l l' -> prefix (x :: l) (x :: l').

(* ------------------------------------------------------------------ *)
(** ** The vocabulary of the properties *)

(** A JSON object, whatever its fields. *)
Definition is_object (v : json) : bool :=
  match v with JObj _ => true | _ => false end.

(** The JSON values the fetcher reports as "Empty JSON data". *)
Definition is_empty (v : json) : bool :=
  match v with
  | JNull | JBool false | JInt 0 | JFloat (S754_zero _) | JStr EmptyString
  | JArr [] | JObj [] => true
  | _ => false
  end.

(** All bindings of a dict but those of key [k]. *)
Definition dict_remove (k : string) (d : list (string * json))
  : list (string * json) :=
  filter (fun kv => negb (String.eqb k (fst kv))) d.

(** A block with the text at [block['text']['text']] taken out: what is
    left is every other field of the block and of its [text] object. *)
Definition strip_text (block : json) : json :=
  match block with
  | JObj bf =>
      JObj (map (fun kv =>
                   if String.eqb "text" (fst kv)
                   then (fst kv,
                         match snd kv with
                         | JObj inner => JObj (dict_remove "text" inner)
                         | other => other
                         end)
                   else kv) bf)
  | _ => block
  end.

(** Two dicts with the same keys in the same order and the same value at
    every key but [k]. *)
Definition same_but_at (k : string) (d d' : list (string * json)) : Prop :=
  Forall2 (fun kv kv' =>
             fst kv = fst kv' /\ (fst kv <> k -> snd kv = snd kv')) d d'.

(** A block that has an object at its key [text]. *)
Definition has_text_object (block : json) : bool :=
  match block with
  | JObj bf =>
      match dict_get "text" bf with Some (JObj _) => true | _ => false end
  | _ => false
  end.

(** The string at [message['blocks'][j]['text']['text']]. *)
Definition block_text (j : nat) (message : json) : option json :=
  match message with
  | JObj mf =>
      match dict_get "blocks" mf with
      | Some (JArr blocks) =>
          match nth_error blocks j with
          | Some (JObj bf) =>
              match dict_get "text" bf with
              | Some (JObj inner) => dict_get "text" inner
              | _ => None
              end
          | _ => None
          end
      | _ => None
      end
  | _ => None
  end.

Definition is_post (ev : event) : bool :=
  match ev with HttpPost _ _ => true | _ => false end.

Definition posted_bodies (t : list event) : list json :=
  flat_map (fun ev => match ev with HttpPost _ body => [body] | _ => [] end) t.

(** [message] is [template] but for the blocks at the positions [touched],
    and there but for the text at [block['text']['text']]. *)
Definition framed (touched : nat -> nat -> Prop) (template message : json)
  : Prop :=
  exists (tf mf : list (string * json)) (blocks blocks' : list json),
    template = JObj tf /\ message = JObj mf
    /\ dict_get "blocks" tf = Some (JArr blocks)
    /\ dict_get "blocks" mf = Some (JArr blocks')
    /\ same_but_at "blocks" tf mf
    /\ List.length blocks' = List.length blocks
    /\ (forall j : nat,
           ~ touched (List.length blocks) j ->
           nth_error blocks' j = nth_error blocks j)
    /\ map strip_text blocks' = map strip_text blocks.

(** A template whose [blocks] is a list of [n] blocks, each with an object
    at its key [text]. *)
Definition well_shaped (n : nat) (template : json) : Prop :=
  exists (tf : list (string * json)) (blocks : list json),
    template = JObj tf
    /\ dict_get "blocks" tf = Some (JArr blocks)
    /\ List.length blocks = n
    /\ forallb has_text_object blocks = true.

(** A computation that posts nothing. *)
Definition quiet {A : Type} (m : M A) : Prop :=
  existsb is_post (trace m) = false.


(** The warning the selector logs for a record, if any: the record has a
    [url] and a [reviewAgain] that are not empty, and [strptime] raises. *)
Definition date_warning (r : list (string * json)) : list event :=
  if truthy (field "reviewAgain" r) && truthy (field "url" r) then
    match strptime (field "reviewAgain" r) with
    | Ok _ => []
    | Raise _ =>
        [Log WARNING
           (CouldNotParseReviewAgain (field "reviewAgain" r) (field "url" r))]
    end
  else [].

(** What every entry of the selector satisfies. *)
Definition overdue_entry (e : entry) : Prop :=
  0 < days_overdue e /\ truthy (url e) = true.

Definition is_get (ev : event) : bool :=
  match ev with HttpGet _ => true | _ => false end.

Definition is_warning (ev : event) : bool :=
  match ev with Log WARNING _ => true | _ => false end.

Definition opens (filename : string) (ev : event) : bool :=
  match ev with OpenFile f => String.eqb f filename | _ => false end.

(** A date written the way [YYYY-MM-DD] asks: four digits, two, two. *)
Definition digit_char (n : Z) : ascii := ascii_of_nat (48 + Z.to_nat n).

Definition two_digits (n : Z) : string :=
  String (digit_char (n / 10)) (String (digit_char (n mod 10)) "").

Definition four_digits (n : Z) : string :=
  String (digit_char (n / 1000))
    (String (digit_char (n / 100 mod 10))
       (String (digit_char (n / 10 mod 10))
          (String (digit_char (n mod 10)) ""))).

Definition isoformat (y m d : Z) : string :=
  (four_digits y ++ "-" ++ two_digits m ++ "-" ++ two_digits d)%string.

(** For each block of a template, whether it has an object at its key
    [text]; nothing when the template is not a dict with a list at
    [blocks]. *)
Definition text_flags (template : json) : option (list bool) :=
  match template with
  | JObj tf =>
      match dict_get "blocks" tf with
      | Some (JArr blocks) => Some (map has_text_object blocks)
      | _ => None
      end
  | _ => None
  end.

(** The index [i] names a block, and that block has an object at [text]. *)
Definition store_fits (i : Z) (flags : list bool) : bool :=
  match norm_index i (List.length flags) with
  | Some j => nth j flags false
  | None => false
  end.

(** A template the three stores of the builder go through on: a dict with
    a list at [blocks] in which the first, the second and the last block
    but one are there and have an object at [text]. *)
Definition template_fits (template : json) : bool :=
  match text_flags template with
  | Some flags =>
      store_fits 0 flags && store_fits 1 flags && store_fits (-2) flags
  | None => false
  end.

(** The number of blocks of a message. *)
Definition block_count (message : json) : option nat :=
  match message with
  | JObj mf =>
      match dict_get "blocks" mf with
      | Some (JArr blocks) => Some (List.length blocks)
      | _ => None
      end
  | _ => None
  end.

Definition is_log (ev : event) : bool :=
  match ev with Log _ _ => true | _ => false end.

(** The requests of a trace: the files opened and the HTTP calls made, in
    order, with the log calls left out. *)
Definition requests (t : list event) : list event :=
  filter (fun ev => negb (is_log ev)) t.

(** What the program logs once a POST has been made. *)
Definition after_post (p : post_outcome) : list event :=
  match p with
  | PostRaised => [Log ERROR CouldNotSendMessage]
  | PostResponse status_code =>
      if status_code =? 200 then [Log INFO NotificationSent] else []
  end.

(** The number of characters of a string: its bytes that are not
    continuation bytes. *)
Definition char_count (s : string) : nat :=
  List.length
    (filter (fun c => negb (continuation c)) (list_ascii_of_string s)).

(* ------------------------------------------------------------------ *)
(** ** Sample data *)

Definition record (t u rv : string) : list (string * json) :=
  [("title", JStr t); ("url", JStr u); ("reviewAgain", JStr rv)].

(** 15 March 2024, half past nine. *)
Definition sample_now : datetime := mk_datetime 2024 3 15 9 30 0 0.

Definition sample_clock : nat -> datetime := fun _ => sample_now.

(** Five records past their review date, one due today, one without a
    usable date and one not yet due. *)
Definition sample_records : list (list (string * json)) :=
  [ record "A" "a.html" "2024-03-10";
    record "B" "b.html" "2024-03-15";
    record "C" "c.html" "2023-03-15";
    record "D" "d.html" "2024-03-10";
    record "E" "e.html" "next week";
    record "F" "f.html" "2024-02-29";
    record "G" "g.html" "2024-04-01";
    record "H" "h.html" "2024-3-14" ].

(** A record with an empty [url]. *)
Definition sample_empty_url : list (string * json) :=
  record "Home" "" "2000-01-01".

Definition settings_with (n : Z) : settings :=
  mk_settings n "page-list.json" "https://hooks.test/T000".

(** A world that answers every request for inventory [i] with [g]. *)
Definition world_answering (g : get_outcome) : world :=
  mk_world FileNotFoundError (fun _ _ => g) (fun _ => sample_clock)
    (fun _ => FileNotFoundError) (fun _ _ => PostRaised).

(** Stand-ins for the library functions in the examples. [sample_urlparse]
    splits a string of the form [scheme://host/path]. *)
Definition sample_repr (v : json) : string := "<value>".

Definition sample_urlparse (u : json) : result (string * string) :=
  match u with
  | JStr s =>
      match index 0 "://" s with
      | Some n =>
          let rest := substring (n + 3) (String.length s - (n + 3)) s in
          Ok (substring 0 n s,
              match index 0 "/" rest with
              | Some k => substring 0 k rest
              | None => rest
              end)
      | None => Ok ("", "")
      end
  | _ => Raise AttributeError
  end.

Fixpoint digits_value (s : string) (acc : Z) : option Z :=
  match s with
  | EmptyString => Some acc
  | String c rest =>
      if is_digit c then digits_value rest (acc * 10 + digit c) else None
  end.

(** [int] on a plain run of ASCII digits. *)
Definition sample_int (s : string) : option Z :=
  match s with
  | EmptyString => None
  | _ => digits_value s 0
  end.

Definition text_block (kind text : string) : json :=
  JObj [("type", JStr kind);
        ("text", JObj [("type", JStr "mrkdwn"); ("text", JStr text)])].

(** A template of the documented shape, with four blocks. *)
Definition sample_template : json :=
  JObj [("blocks",
         JArr [text_block "header" "title";
               text_block "section" "heading";
               text_block "section" "list";
               text_block "context" "github.com/ministryofjustice"])].

(** A template with the two blocks the specification asks for at least. *)
Definition two_block_template : json :=
  JObj [("blocks",
         JArr [text_block "header" "title"; text_block "section" "heading"])].

Definition sample_inventory : json := JArr (map JObj sample_records).

(** A run with one inventory URL, which answers with [inventory]; the
    template file holds [template] and the webhook answers 200. *)
Definition sample_world (inventory template : json) : world :=
  mk_world
    (FileJson (JObj [("pages", JArr [JStr "http://a.test/inv"])]))
    (fun _ _ => Response 200 (Parsed inventory))
    (fun _ => sample_clock)
    (fun _ => FileJson template)
    (fun _ _ => PostResponse 200).

Definition sample_environ (max_docs_value : option string) : environ :=
  mk_environ None max_docs_value None (Some "https://hooks.test/T000").

(** A run of nine inventory URLs in which most things go wrong: the GET
    raises, answers 500, answers with a body that is not JSON or with an
    empty list; the template file is missing or has no block; the POST
    raises or answers 500; the last URL is not a string. *)
Definition failing_world : world :=
  mk_world
    (FileJson
       (JObj [("pages",
               JArr [JStr "http://a.test/0"; JStr "http://a.test/1";
                     JStr "http://a.test/2"; JStr "http://a.test/3";
                     JStr "http://a.test/4"; JStr "http://a.test/5";
                     JStr "http://a.test/6"; JStr "http://a.test/7";
                     JInt 8])]))
    (fun i u =>
       match u with
       | JStr _ =>
           match i with
           | 0%nat => GetRaised
           | 1%nat => Response 500 (Parsed sample_inventory)
           | 2%nat => Response 200 JSONDecodeError
           | 3%nat => Response 200 (Parsed (JArr []))
           | _ => Response 200 (Parsed sample_inventory)
           end
       | _ => GetRaised
       end)
    (fun _ => sample_clock)
    (fun i =>
       match i with
       | 4%nat => FileNotFoundError
       | 5%nat => FileJson (JObj [("blocks", JArr [])])
       | _ => FileJson sample_template
       end)
    (fun i _ =>
       match i with
       | 6%nat => PostRaised
       | 7%nat => PostResponse 500
       | _ => PostResponse 200
       end).

(** Settings with no webhook. *)
Definition settings_without_webhook : settings :=
  mk_settings 10 "page-list.json" "".

(* ------------------------------------------------------------------ *)
(** ** Basic facts: the monad *)

Lemma outcome_bind {A B : Type} (m : M A) (f : A -> M B) :
  outcome (bind m f) =
  match outcome m with Ok a => outcome (f a) | Raise e => Raise e end.
Proof.
  destruct m as [t [a | e]]; simpl; [destruct (f a) |]; reflexivity.
Qed.

Lemma trace_bind {A B : Type} (m : M A) (f : A -> M B) :
  trace (bind m f) =
  match outcome m with
  | Ok a => trace m ++ trace (f a)
  | Raise _ => trace m
  end.
Proof.
  destruct m as [t [a | e]]; simpl; [destruct (f a) |]; reflexivity.
Qed.

Lemma outcome_lift {A : Type} (r : result A) : outcome (lift r) = r.
Proof. reflexivity. Qed.

Lemma outcome_ret {A : Type} (a : A) : outcome (ret a) = Ok a.
Proof. reflexivity. Qed.

Lemma outcome_catch {A : Type} (m : M A) (h : exn -> M A) :
  outcome (catch m h) =
  match outcome m with Ok a => Ok a | Raise e => outcome (h e) end.
Proof.
  destruct m as [t [a | e]]; simpl; [| destruct (h e)]; reflexivity.
Qed.

(* ------------------------------------------------------------------ *)
(** ** Basic facts: dates *)

Lemma days_new_timedelta (d s us : Z) :
  days (new_timedelta d s us) = ((d * 86400 + s) * 1000000 + us) / microseconds_per_day.
Proof.
  unfold new_timedelta, microseconds_per_day; cbn [days].
  rewrite (Z.mul_comm 86400 1000000), <- Z.div_div by lia.
  rewrite Z.div_add_l by lia.
  rewrite (Z.div_small (us mod 1000000) 1000000)
    by (apply Z.mod_pos_bound; lia).
  rewrite Z.add_0_r.
  replace (d * 86400 + s + us / 1000000)
    with ((s + us / 1000000) + d * 86400) by lia.
  rewrite Z.div_add by lia.
  set (q := us / 1000000).
  pose proof (Z.div_mod s 86400 ltac:(lia)) as Hs.
  pose proof (Z.div_mod q 86400 ltac:(lia)) as Hq.
  replace (s + q)
    with ((s mod 86400 + q mod 86400) + (s / 86400 + q / 86400) * 86400)
    by lia.
  rewrite Z.div_add by lia. lia.
Qed.

Lemma days_datetime_sub (now d : datetime) :
  days (datetime_sub now d) = whole_days_between now d.
Proof.
  unfold datetime_sub, whole_days_between, instant.
  rewrite days_new_timedelta. f_equal. lia.
Qed.

Lemma strptime_truthy (v : json) (d : datetime) :
  strptime v = Ok d -> truthy v = true.
Proof.
  destruct v; simpl; try discriminate.
  destruct s; simpl; [discriminate | reflexivity].
Qed.

Lemma strptime_midnight (v : json) (d : datetime) :
  strptime v = Ok d ->
  hour d = 0 /\ minute d = 0 /\ second d = 0 /\ microsecond d = 0.
Proof.
  destruct v; simpl; try discriminate.
  destruct (match_ymd s) as [[[[y m] dd] rest] |]; try discriminate.
  destruct (negb (rest =? "")%string); try discriminate.
  destruct (check_date_fields y m dd); try discriminate.
  intros H; injection H as <-; simpl; auto.
Qed.

(** On the day [d] itself, at any time of day, no whole day has passed. *)
Lemma same_day_not_overdue (now d : datetime) :
  check_time_fields now = true ->
  toordinal now = toordinal d ->
  hour d = 0 -> minute d = 0 -> second d = 0 -> microsecond d = 0 ->
  whole_days_between now d = 0.
Proof.
  unfold check_time_fields, whole_days_between, instant, microseconds_per_day.
  intros Ht Ho Hh Hm Hs Hu. rewrite Ho, Hh, Hm, Hs, Hu.
  repeat rewrite andb_true_iff in Ht.
  repeat rewrite Z.leb_le in Ht.
  apply Z.div_small. lia.
Qed.

(* ------------------------------------------------------------------ *)
(** ** Basic facts: the selector on a sequence of records *)

Lemma outcome_examine (now : datetime) (r : list (string * json))
  (acc : list entry) :
  outcome (examine now (JObj r) acc)
  = Ok (acc ++ option_list (qualifying_entry now r)).
Proof.
  unfold examine, qualifying_entry, calendar_date, doc_get, field.
  set (u := match dict_get "url" r with Some v => v | None => JNull end).
  set (rv := match dict_get "reviewAgain" r with Some v => v | None => JNull end).
  set (ti := match dict_get "title" r with Some v => v | None => JNull end).
  cbn -[strptime datetime_sub truthy].
  destruct (strptime rv) as [d | e] eqn:Hp.
  - rewrite (strptime_truthy _ _ Hp).
    destruct (truthy u); cbn -[datetime_sub].
    + rewrite days_datetime_sub.
      destruct (whole_days_between now d >? 0); cbn;
        [reflexivity | now rewrite app_nil_r].
    + now rewrite app_nil_r.
  - destruct (truthy rv && truthy u); cbn;
      destruct (truthy u); cbn; now rewrite app_nil_r.
Qed.

Lemma outcome_examine_all (now_at : nat -> datetime)
  (records : list (list (string * json))) :
  forall (i : nat) (acc : list entry),
    outcome (examine_all now_at i (map JObj records) acc)
    = Ok (acc ++ qualifying now_at i records).
Proof.
  induction records as [| r rest IH]; intros i acc; simpl.
  - now rewrite app_nil_r.
  - rewrite outcome_bind, outcome_examine, IH, <- app_assoc. reflexivity.
Qed.

(** The value the selector returns on a sequence of records. *)
Lemma selector_on_records (cfg : settings) (now_at : nat -> datetime)
  (records : list (list (string * json))) :
  outcome (get_out_of_date_docs cfg now_at (JArr (map JObj records)))
  = Ok (let sorted := sort_desc (qualifying now_at 0 records) in
        slice_to (if max_docs cfg >? 0 then max_docs cfg
                  else Z.of_nat (List.length sorted)) sorted).
Proof.
  unfold get_out_of_date_docs.
  rewrite outcome_bind, outcome_lift. simpl py_iter. cbv iota.
  rewrite outcome_bind, outcome_examine_all. reflexivity.
Qed.

Lemma in_qualifying (now_at : nat -> datetime) (e : entry)
  (records : list (list (string * json))) :
  forall i : nat,
    In e (qualifying now_at i records) <->
    exists (j : nat) (r : list (string * json)),
      nth_error records j = Some r
      /\ qualifying_entry (now_at (i + j)%nat) r = Some e.
Proof.
  induction records as [| r rest IH]; intros i; simpl.
  - split; [tauto | intros (j & r & H & _); destruct j; discriminate].
  - rewrite in_app_iff, IH. split.
    + intros [H | (j & r' & Hn & Hq)].
      * exists 0%nat, r. rewrite Nat.add_0_r. split; [reflexivity |].
        destruct (qualifying_entry (now_at i) r); simpl in H;
          [destruct H as [-> | []]; reflexivity | contradiction].
      * exists (S j), r'. split; [exact Hn |].
        now rewrite Nat.add_succ_r.
    + intros (j & r' & Hn & Hq). destruct j as [| j]; simpl in Hn.
      * injection Hn as ->. rewrite Nat.add_0_r in Hq.
        left. rewrite Hq. now left.
      * right. exists j, r'. split; [exact Hn |].
        now rewrite Nat.add_succ_r in Hq.
Qed.

(* ------------------------------------------------------------------ *)
(** ** Basic facts: the sort and the slice *)

Lemma insert_desc_in (e x : entry) (l : list entry) :
  In x (insert_desc e l) <-> x = e \/ In x l.
Proof.
  induction l as [| y rest IH]; simpl.
  - intuition congruence.
  - destruct (days_overdue e <? days_overdue y); simpl;
      [rewrite IH |]; intuition congruence.
Qed.

Lemma insert_desc_descending (e : entry) (l : list entry) :
  descending l -> descending (insert_desc e l).
Proof.
  unfold descending.
  induction l as [| y rest IH]; intros Hs; simpl.
  - repeat constructor.
  - destruct (days_overdue e <? days_overdue y) eqn:Hlt.
    + apply Z.ltb_lt in Hlt. inversion Hs as [| ? ? Hrest Hall]; subst.
      constructor; [now apply IH |].
      apply Forall_forall. intros x Hx.
      apply insert_desc_in in Hx as [-> | Hx]; [lia |].
      now apply (proj1 (Forall_forall _ _) Hall).
    + apply Z.ltb_ge in Hlt. constructor; [exact Hs |].
      inversion Hs as [| ? ? Hrest Hall]; subst.
      constructor; [exact Hlt |].
      eapply Forall_impl; [| exact Hall]. simpl. intros; lia.
Qed.

Lemma sort_desc_descending (l : list entry) : descending (sort_desc l).
Proof.
  induction l as [| e rest IH]; simpl.
  - constructor.
  - now apply insert_desc_descending.
Qed.

Lemma with_days_insert_desc (k : Z) (e : entry) (l : list entry) :
  with_days k (insert_desc e l) = with_days k (e :: l).
Proof.
  unfold with_days.
  induction l as [| y rest IH]; simpl; [reflexivity |].
  destruct (days_overdue e <? days_overdue y) eqn:Hlt; [| reflexivity].
  apply Z.ltb_lt in Hlt. simpl. rewrite IH. simpl.
  destruct (days_overdue e =? k) eqn:He, (days_overdue y =? k) eqn:Hy;
    try reflexivity.
  apply Z.eqb_eq in He, Hy. lia.
Qed.

(** The sort is stable: the entries of one day count keep their order. *)
Lemma with_days_sort_desc (k : Z) (l : list entry) :
  with_days k (sort_desc l) = with_days k l.
Proof.
  induction l as [| e rest IH]; simpl; [reflexivity |].
  rewrite with_days_insert_desc. unfold with_days in *. simpl.
  now rewrite IH.
Qed.

Lemma insert_desc_length (e : entry) (l : list entry) :
  List.length (insert_desc e l) = S (List.length l).
Proof.
  induction l as [| y rest IH]; simpl; [reflexivity |].
  destruct (days_overdue e <? days_overdue y); simpl; [now rewrite IH | reflexivity].
Qed.

Lemma sort_desc_length (l : list entry) :
  List.length (sort_desc l) = List.length l.
Proof.
  induction l as [| e rest IH]; simpl; [reflexivity |].
  now rewrite insert_desc_length, IH.
Qed.

Lemma descending_firstn (n : nat) (l : list entry) :
  descending l -> descending (firstn n l).
Proof.
  unfold descending. revert l.
  induction n as [| n IH]; intros [| x l] Hs; simpl; try constructor.
  - inversion Hs; subst. now apply IH.
  - inversion Hs as [| ? ? _ Hall]; subst.
    apply Forall_forall. intros y Hy.
    apply (proj1 (Forall_forall _ _) Hall).
    revert Hy. clear. revert l.
    induction n as [| n IH]; intros [| z l]; simpl; try tauto.
    intros [-> | H]; [now left | right; now apply IH].
Qed.

Lemma prefix_refl {A : Type} (l : list A) : prefix l l.
Proof. induction l; constructor; assumption. Qed.

Lemma with_days_firstn (k : Z) (n : nat) (l : list entry) :
  prefix (with_days k (firstn n l)) (with_days k l).
Proof.
  unfold with_days. revert l.
  induction n as [| n IH]; intros [| x l]; simpl; try constructor.
  destruct (days_overdue x =? k); [constructor |]; apply IH.
Qed.

Lemma slice_to_positive {A : Type} (k : Z) (l : list A) :
  0 < k -> slice_to k l = firstn (Z.to_nat k) l.
Proof.
  intros H. unfold slice_to.
  destruct (k <? 0) eqn:E; [apply Z.ltb_lt in E; lia | reflexivity].
Qed.

Lemma slice_to_length {A : Type} (l : list A) :
  slice_to (Z.of_nat (List.length l)) l = l.
Proof.
  unfold slice_to.
  destruct (Z.of_nat (List.length l) <? 0) eqn:E;
    [apply Z.ltb_lt in E; lia |].
  rewrite Nat2Z.id. apply firstn_all.
Qed.

(** Whatever the bound, the slice the selector takes is an initial part of
    the sorted list. *)
Lemma selector_slice (n : Z) (l : list entry) :
  exists c : nat,
    slice_to (if n >? 0 then n else Z.of_nat (List.length l)) l = firstn c l.
Proof.
  destruct (n >? 0) eqn:E.
  - exists (Z.to_nat n). apply slice_to_positive. lia.
  - exists (List.length l). rewrite slice_to_length. symmetry. apply firstn_all.
Qed.

(* ------------------------------------------------------------------ *)
(** ** The overdue selector: selection, order, truncation *)

(** C1, as stated, fails on a record whose [url] is the empty string: the
    field is present, [reviewAgain] is a calendar date 8840 days before the
    clock reading, and yet the selector, with no bound on the length of its
    answer, returns no entry for the record. *)
Lemma empty_url_is_skipped :
  present "url" sample_empty_url = true
  /\ stated_entry sample_now sample_empty_url
     = Some (mk_entry (JStr "Home") (JStr "") 8840)
  /\ outcome (get_out_of_date_docs (settings_with 0) sample_clock
                (JArr [JObj sample_empty_url]))
     = Ok [].
Proof. repeat split; vm_compute; reflexivity. Qed.

(** C1, amended: on every sequence of records the selector returns, and
    what it returns is the qualifying set, sorted and cut to the configured
    length. The qualifying set holds an entry for the record at position
    [j] exactly when the record's [url] is present and not empty,
    its [reviewAgain] is a calendar date in the format YYYY-MM-DD, and
    the whole-day difference from the clock reading to that date is
    positive; the entry's [days_overdue] is that difference. A record whose
    [reviewAgain] is the day of the clock reading yields no entry. *)
Theorem selector_selects_overdue_records (cfg : settings)
  (now_at : nat -> datetime) (records : list (list (string * json))) :
  outcome (get_out_of_date_docs cfg now_at (JArr (map JObj records)))
  = Ok (let sorted := sort_desc (qualifying now_at 0 records) in
        slice_to (if max_docs cfg >? 0 then max_docs cfg
                  else Z.of_nat (List.length sorted)) sorted)
  /\ (forall e : entry,
         In e (qualifying now_at 0 records) <->
         exists (j : nat) (r : list (string * json)) (d : datetime),
           nth_error records j = Some r
           /\ truthy (field "url" r) = true
           /\ calendar_date (field "reviewAgain" r) = Some d
           /\ 0 < whole_days_between (now_at j) d
           /\ e = mk_entry (field "title" r) (field "url" r)
                    (whole_days_between (now_at j) d))
  /\ (forall (j : nat) (r : list (string * json)) (d : datetime),
         nth_error records j = Some r ->
         check_time_fields (now_at j) = true ->
         calendar_date (field "reviewAgain" r) = Some d ->
         year d = year (now_at j) /\ month d = month (now_at j)
         /\ day d = day (now_at j) ->
         qualifying_entry (now_at j) r = None).
Proof.
  split; [apply selector_on_records | split].
  - intros e. rewrite in_qualifying. simpl.
    split.
    + intros (j & r & Hn & Hq). exists j, r.
      unfold qualifying_entry in Hq.
      destruct (truthy (field "url" r)); [| discriminate].
      destruct (calendar_date (field "reviewAgain" r)) as [d |];
        [| discriminate].
      exists d.
      destruct (whole_days_between (now_at j) d >? 0) eqn:Hpos;
        [| discriminate].
      injection Hq as <-. repeat split; try assumption; lia.
    + intros (j & r & d & Hn & Hu & Hd & Hpos & ->). exists j, r.
      split; [exact Hn |].
      unfold qualifying_entry. rewrite Hu, Hd.
      destruct (whole_days_between (now_at j) d >? 0) eqn:E;
        [reflexivity | lia].
  - intros j r d _ Ht Hd (Hy & Hm & Hday).
    unfold qualifying_entry. rewrite Hd.
    unfold calendar_date in Hd.
    destruct (strptime (field "reviewAgain" r)) as [d' |] eqn:Hp;
      [| discriminate].
    injection Hd as ->.
    destruct (strptime_midnight _ _ Hp) as (H1 & H2 & H3 & H4).
    rewrite (same_day_not_overdue (now_at j) d); auto.
    + now destruct (truthy (field "url" r)).
    + unfold toordinal. now rewrite Hy, Hm, Hday.
Qed.

Lemma selector_selects_overdue_records_witness :
  outcome (get_out_of_date_docs (settings_with 0) sample_clock
             (JArr (map JObj sample_records)))
  = Ok [ mk_entry (JStr "C") (JStr "c.html") 366;
         mk_entry (JStr "F") (JStr "f.html") 15;
         mk_entry (JStr "A") (JStr "a.html") 5;
         mk_entry (JStr "D") (JStr "d.html") 5;
         mk_entry (JStr "H") (JStr "h.html") 1 ]
  /\ qualifying_entry (sample_clock 1) (record "B" "b.html" "2024-03-15")
     = None.
Proof.
  destruct (selector_selects_overdue_records (settings_with 0) sample_clock
              sample_records) as (Hout & _ & Htoday).
  split.
  - rewrite Hout. vm_compute. reflexivity.
  - apply (Htoday 1%nat (record "B" "b.html" "2024-03-15")
             (mk_datetime 2024 3 15 0 0 0 0)).
    + reflexivity.
    + reflexivity.
    + vm_compute. reflexivity.
    + repeat split.
Defined.

(** C2: on every sequence of records, in whatever order they come, the
    selector's output is in non-increasing order of [days_overdue], and for
    each day count the output's entries with that count are, in the same
    order, the first ones among the qualifying records with that count taken
    in input order. *)
Theorem selector_output_sorted_stable (cfg : settings)
  (now_at : nat -> datetime) (records : list (list (string * json))) :
  exists out : list entry,
    outcome (get_out_of_date_docs cfg now_at (JArr (map JObj records)))
    = Ok out
    /\ descending out
    /\ forall k : Z,
         prefix (with_days k out) (with_days k (qualifying now_at 0 records)).
Proof.
  rewrite selector_on_records. cbv zeta.
  destruct (selector_slice (max_docs cfg)
              (sort_desc (qualifying now_at 0 records))) as [c ->].
  eexists; split; [reflexivity | split].
  - apply descending_firstn, sort_desc_descending.
  - intros k. rewrite <- (with_days_sort_desc k (qualifying now_at 0 records)).
    apply with_days_firstn.
Qed.

(** C3: with [m] qualifying records and configured maximum [N], if [N > 0]
    the output is the first [N] entries of the sorted qualifying set and has
    length [min N m]; if [N = 0] it is the whole sorted qualifying set, of
    length [m]. *)
Theorem selector_truncates_to_max_docs (cfg : settings)
  (now_at : nat -> datetime) (records : list (list (string * json))) :
  let sorted := sort_desc (qualifying now_at 0 records) in
  let m := List.length (qualifying now_at 0 records) in
  let N := max_docs cfg in
  exists out : list entry,
    outcome (get_out_of_date_docs cfg now_at (JArr (map JObj records)))
    = Ok out
    /\ (0 < N ->
        out = firstn (Z.to_nat N) sorted
        /\ Z.of_nat (List.length out) = Z.min N (Z.of_nat m))
    /\ (N = 0 -> out = sorted /\ List.length out = m).
Proof.
  intros sorted m N. rewrite selector_on_records. cbv zeta.
  fold sorted. fold N.
  eexists; split; [reflexivity | split].
  - intros HN. destruct (N >? 0) eqn:E; [| lia].
    rewrite slice_to_positive by exact HN.
    split; [reflexivity |].
    rewrite length_firstn. unfold sorted. rewrite sort_desc_length.
    fold m. lia.
  - intros HN. rewrite HN. simpl. rewrite slice_to_length.
    split; [reflexivity | apply sort_desc_length].
Qed.

Lemma selector_truncates_to_max_docs_witness :
  (exists out : list entry,
      outcome (get_out_of_date_docs (settings_with 3) sample_clock
                 (JArr (map JObj sample_records))) = Ok out
      /\ out = [ mk_entry (JStr "C") (JStr "c.html") 366;
                 mk_entry (JStr "F") (JStr "f.html") 15;
                 mk_entry (JStr "A") (JStr "a.html") 5 ]
      /\ List.length out = 3%nat)
  /\ (exists out : list entry,
         outcome (get_out_of_date_docs (settings_with 0) sample_clock
                    (JArr (map JObj sample_records))) = Ok out
         /\ List.length out = 5%nat).
Proof.
  split.
  - destruct (selector_truncates_to_max_docs (settings_with 3) sample_clock
                sample_records) as (out & Hout & Hpos & _).
    destruct (Hpos ltac:(simpl; lia)) as [Hfirst Hlen].
    exists out. split; [exact Hout | split].
    + rewrite Hfirst. vm_compute. reflexivity.
    + rewrite Hfirst. vm_compute. reflexivity.
  - destruct (selector_truncates_to_max_docs (settings_with 0) sample_clock
                sample_records) as (out & Hout & _ & Hzero).
    destruct (Hzero ltac:(reflexivity)) as [Hall Hlen].
    exists out. split; [exact Hout |].
    rewrite Hlen. vm_compute. reflexivity.
Defined.

(* ------------------------------------------------------------------ *)
(** ** The overdue selector: which inputs it accepts *)

Lemma outcome_examine_not_object (now : datetime) (doc : json)
  (acc : list entry) :
  is_object doc = false -> outcome (examine now doc acc) = Raise AttributeError.
Proof. destruct doc; simpl; intros H; try reflexivity; discriminate. Qed.

Lemma objects_are_records (items : list json) :
  forallb is_object items = true ->
  exists records : list (list (string * json)), items = map JObj records.
Proof.
  induction items as [| v rest IH]; simpl; intros H.
  - now exists [].
  - apply andb_true_iff in H as [Hv Hrest].
    destruct (IH Hrest) as [records ->].
    destruct v; try discriminate. now exists (fields :: records).
Qed.

Lemma outcome_examine_all_raises (now_at : nat -> datetime)
  (docs : list json) :
  forall (i : nat) (acc : list entry),
    forallb is_object docs = false ->
    outcome (examine_all now_at i docs acc) = Raise AttributeError.
Proof.
  induction docs as [| doc rest IH]; intros i acc H; simpl in *.
  - discriminate.
  - rewrite outcome_bind.
    destruct (is_object doc) eqn:Hd.
    + destruct doc; try discriminate.
      rewrite outcome_examine. now apply IH.
    + now rewrite outcome_examine_not_object.
Qed.

(** C7, as stated, fails: on the JSON array [[1]] the selector ends with
    an [AttributeError], on the JSON number [5] with a [TypeError], and on
    the JSON object [{"a": 1}] with an [AttributeError] again. *)
Lemma selector_raises_on_other_shapes :
  outcome (get_out_of_date_docs (settings_with 0) sample_clock
             (JArr [JInt 1])) = Raise AttributeError
  /\ outcome (get_out_of_date_docs (settings_with 0) sample_clock
                (JInt 5)) = Raise TypeError
  /\ outcome (get_out_of_date_docs (settings_with 0) sample_clock
                (JObj [("a", JInt 1)])) = Raise AttributeError.
Proof. repeat split. Qed.

(** C7, amended: the selector returns without an exception exactly on the
    values that can be iterated and yield JSON objects only; on an array
    of objects it always returns, whatever the objects hold, and an
    object whose [reviewAgain] is not a string yields no entry. *)
Theorem selector_total_on_arrays_of_objects (cfg : settings)
  (now_at : nat -> datetime) :
  (forall doc_list : json,
      (exists out : list entry,
          outcome (get_out_of_date_docs cfg now_at doc_list) = Ok out)
      <->
      (exists items : list json,
          py_iter doc_list = Ok items /\ forallb is_object items = true))
  /\ (forall records : list (list (string * json)),
         exists out : list entry,
           outcome (get_out_of_date_docs cfg now_at (JArr (map JObj records)))
           = Ok out)
  /\ (forall (now : datetime) (r : list (string * json)),
         (forall s : string, field "reviewAgain" r <> JStr s) ->
         qualifying_entry now r = None).
Proof.
  split; [| split].
  - intros doc_list. unfold get_out_of_date_docs.
    rewrite outcome_bind, outcome_lift.
    destruct (py_iter doc_list) as [items | e].
    + rewrite outcome_bind.
      destruct (forallb is_object items) eqn:Hall.
      * destruct (objects_are_records _ Hall) as [records ->].
        rewrite outcome_examine_all. split.
        -- intros _. eexists; split; [reflexivity | exact Hall].
        -- intros _. eexists; reflexivity.
      * rewrite outcome_examine_all_raises by exact Hall. split.
        -- intros [out H]; discriminate.
        -- intros [items' [H1 H2]]. injection H1 as <-. congruence.
    + split.
      * intros [out H]; discriminate.
      * intros [items [H _]]; discriminate.
  - intros records. rewrite selector_on_records. eexists; reflexivity.
  - intros now r Hns. unfold qualifying_entry, calendar_date.
    destruct (field "reviewAgain" r) eqn:Hf;
      try (simpl; now destruct (truthy (field "url" r))).
    exfalso. now apply (Hns s).
Qed.

Lemma selector_total_on_arrays_of_objects_witness :
  (exists out : list entry,
      outcome (get_out_of_date_docs (settings_with 0) sample_clock
                 (JArr [JObj [("reviewAgain", JInt 20240310); ("url", JStr "x")];
                        JObj []])) = Ok out)
  /\ qualifying_entry sample_now
       [("reviewAgain", JInt 20240310); ("url", JStr "x")] = None.
Proof.
  destruct (selector_total_on_arrays_of_objects (settings_with 0) sample_clock)
    as (Hiff & _ & Hnot).
  split.
  - apply Hiff.
    exists [JObj [("reviewAgain", JInt 20240310); ("url", JStr "x")]; JObj []].
    split; reflexivity.
  - apply Hnot. intros s. simpl. discriminate.
Defined.

(* ------------------------------------------------------------------ *)
(** ** The document fetcher *)

Lemma is_empty_not_truthy (v : json) : is_empty v = negb (truthy v).
Proof.
  destruct v as [| [|] | [| p | p] | [] | [|] | [|] | [|]]; reflexivity.
Qed.

(** C6: the fetcher returns [None] exactly when the GET raises, the
    status is not 200, the body does not decode as JSON, or the decoded
    value is empty; with status 200 and a decoded value that is not empty
    it returns that value. *)
Theorem get_doc_list_absent_or_payload (w : world) (i : nat) (url : json) :
  (outcome (get_doc_list w i url) = Ok None
   <->
   (http_get w i url = GetRaised
    \/ (exists (status_code : Z) (body : json_outcome),
           http_get w i url = Response status_code body /\ status_code <> 200)
    \/ http_get w i url = Response 200 JSONDecodeError
    \/ (exists data : json,
           http_get w i url = Response 200 (Parsed data)
           /\ is_empty data = true)))
  /\ (forall data : json,
         http_get w i url = Response 200 (Parsed data) ->
         is_empty data = false ->
         outcome (get_doc_list w i url) = Ok (Some data)).
Proof.
  unfold get_doc_list. rewrite outcome_bind. simpl outcome at 1. cbv iota.
  destruct (http_get w i url) as [| status_code body] eqn:Hg.
  - split; [| intros; discriminate].
    split; [now left | reflexivity].
  - destruct (status_code =? 200) eqn:Hs.
    + apply Z.eqb_eq in Hs. subst status_code.
      destruct body as [data |].
      * rewrite <- (negb_involutive (truthy data)), <- is_empty_not_truthy.
        destruct (is_empty data) eqn:He; simpl.
        -- split; [| intros d H; injection H as <-; congruence].
           split; [| reflexivity]. intros _. right; right; right.
           now exists data.
        -- split; [| intros d H; now injection H as <-].
           split; [discriminate |].
           intros [H | [(s & b & H & Hne) | [H | (d & H & Hd)]]];
             try discriminate.
           ++ injection H as <- _. contradiction.
           ++ injection H as <-. congruence.
      * split; [| intros; discriminate].
        split; [| reflexivity]. intros _. now right; right; left.
    + apply Z.eqb_neq in Hs.
      split; [| intros d H; injection H as -> _; contradiction].
      split; [| reflexivity]. intros _. right; left.
      now exists status_code, body.
Qed.

Lemma get_doc_list_absent_or_payload_witness :
  outcome (get_doc_list (world_answering (Response 200 (Parsed (JArr []))))
             0 (JStr "http://a.test/inv")) = Ok None
  /\ outcome (get_doc_list
                (world_answering (Response 200 (Parsed (JArr [JObj []]))))
                0 (JStr "http://a.test/inv")) = Ok (Some (JArr [JObj []])).
Proof.
  split.
  - apply (get_doc_list_absent_or_payload
             (world_answering (Response 200 (Parsed (JArr []))))).
    right; right; right. exists (JArr []). split; reflexivity.
  - apply (get_doc_list_absent_or_payload
             (world_answering (Response 200 (Parsed (JArr [JObj []]))))).
    + reflexivity.
    + reflexivity.
Defined.

(* ------------------------------------------------------------------ *)
(** ** Basic facts: dicts, lists and the template store *)

Lemma dict_get_set_same (k : string) (v : json) (d : list (string * json)) :
  dict_get k (dict_set k v d) = Some v.
Proof.
  induction d as [| [k' v'] rest IH]; simpl.
  - now rewrite String.eqb_refl.
  - destruct (String.eqb k k') eqn:E; simpl; rewrite E; [reflexivity | exact IH].
Qed.

Lemma same_but_at_refl (k : string) (d : list (string * json)) :
  same_but_at k d d.
Proof. induction d; constructor; auto. Qed.

Lemma same_but_at_trans (k : string) (d1 d2 d3 : list (string * json)) :
  same_but_at k d1 d2 -> same_but_at k d2 d3 -> same_but_at k d1 d3.
Proof.
  unfold same_but_at. intros H. revert d3.
  induction H as [| x y l l' [Hk Hv] _ IH]; intros d3 H3.
  - inversion H3; constructor.
  - inversion H3 as [| ? z ? l'' [Hk' Hv'] Hrest]; subst.
    constructor; [| now apply IH].
    split; [congruence |].
    intros Hne. rewrite Hv by exact Hne. apply Hv'. congruence.
Qed.

Lemma same_but_at_dict_set (k : string) (v x : json)
  (d : list (string * json)) :
  dict_get k d = Some x -> same_but_at k d (dict_set k v d).
Proof.
  induction d as [| [k' v'] rest IH]; simpl; [discriminate |].
  destruct (String.eqb k k') eqn:E; intros H.
  - apply String.eqb_eq in E. subst k'.
    constructor; [| apply same_but_at_refl].
    simpl. split; [reflexivity | congruence].
  - constructor; [simpl; auto | now apply IH].
Qed.

Lemma list_set_length {A : Type} (j : nat) (x : A) (l : list A) :
  List.length (list_set j x l) = List.length l.
Proof.
  revert j. induction l as [| y rest IH]; intros [| j]; simpl; auto.
Qed.

Lemma nth_error_list_set_same {A : Type} (j : nat) (x : A) (l : list A) :
  (j < List.length l)%nat -> nth_error (list_set j x l) j = Some x.
Proof.
  revert j. induction l as [| y rest IH]; intros [| j]; simpl; intros H;
    try lia; [reflexivity | apply IH; lia].
Qed.

Lemma nth_error_list_set_other {A : Type} (j j' : nat) (x : A) (l : list A) :
  j' <> j -> nth_error (list_set j x l) j' = nth_error l j'.
Proof.
  revert j j'. induction l as [| y rest IH]; intros [| j] [| j'] H; simpl;
    try reflexivity; [congruence | apply IH; congruence].
Qed.

Lemma map_list_set_same {A B : Type} (f : A -> B) (j : nat) (x y : A)
  (l : list A) :
  nth_error l j = Some y -> f x = f y -> map f (list_set j x l) = map f l.
Proof.
  revert j. induction l as [| z rest IH]; intros [| j]; simpl; intros H E;
    try discriminate.
  - injection H as ->. now rewrite E.
  - f_equal. now apply IH.
Qed.

Lemma forallb_list_set {A : Type} (p : A -> bool) (j : nat) (x : A)
  (l : list A) :
  forallb p l = true -> p x = true -> forallb p (list_set j x l) = true.
Proof.
  revert j. induction l as [| y rest IH]; intros [| j]; simpl; intros H Hx;
    auto; apply andb_true_iff in H as [H1 H2]; apply andb_true_iff; auto.
Qed.

Lemma norm_index_bound (i : Z) (n j : nat) :
  norm_index i n = Some j -> (j < n)%nat.
Proof.
  unfold norm_index.
  destruct ((0 <=? (if i <? 0 then i + Z.of_nat n else i))
            && ((if i <? 0 then i + Z.of_nat n else i) <? Z.of_nat n)) eqn:E;
    [| discriminate].
  intros H; injection H as <-.
  apply andb_true_iff in E as [E1 E2].
  apply Z.leb_le in E1. apply Z.ltb_lt in E2. lia.
Qed.

Lemma norm_index_position (i : Z) (n j : nat) :
  norm_index i n = Some j ->
  Z.of_nat j = if i <? 0 then i + Z.of_nat n else i.
Proof.
  unfold norm_index.
  destruct ((0 <=? (if i <? 0 then i + Z.of_nat n else i))
            && ((if i <? 0 then i + Z.of_nat n else i) <? Z.of_nat n)) eqn:E;
    [| discriminate].
  intros H; injection H as <-.
  apply andb_true_iff in E as [E1 _].
  apply Z.leb_le in E1. lia.
Qed.

Lemma dict_remove_set (k : string) (v : json) (d : list (string * json)) :
  dict_remove k (dict_set k v d) = dict_remove k d.
Proof.
  unfold dict_remove.
  induction d as [| [k' v'] rest IH]; simpl.
  - now rewrite String.eqb_refl.
  - destruct (String.eqb k k') eqn:E; simpl; rewrite E; simpl;
      [reflexivity | now rewrite IH].
Qed.

(** Storing a new text in a block leaves the rest of the block as it was. *)
Lemma strip_text_store (text : json) (bf inner : list (string * json)) :
  dict_get "text" bf = Some (JObj inner) ->
  strip_text (JObj (dict_set "text" (JObj (dict_set "text" text inner)) bf))
  = strip_text (JObj bf).
Proof.
  unfold strip_text. intros H. f_equal.
  induction bf as [| [k v] rest IH]; [discriminate |].
  cbn [dict_get dict_set] in *.
  destruct (String.eqb "text" k) eqn:E.
  - injection H as ->. cbn [map fst snd]. rewrite E.
    now rewrite dict_remove_set.
  - cbn [map fst snd]. rewrite E. f_equal. now apply IH.
Qed.

Lemma has_text_object_store (text : json) (bf inner : list (string * json)) :
  has_text_object
    (JObj (dict_set "text" (JObj (dict_set "text" text inner)) bf)) = true.
Proof. unfold has_text_object. now rewrite dict_get_set_same. Qed.

(** What a successful store has read and what it has built. *)
Lemma assign_text_inversion (i : Z) (text : string) (template message : json) :
  assign_text i text template = Ok message ->
  exists (tf : list (string * json)) (blocks : list json) (j : nat)
         (bf inner : list (string * json)),
    template = JObj tf
    /\ dict_get "blocks" tf = Some (JArr blocks)
    /\ norm_index i (List.length blocks) = Some j
    /\ nth_error blocks j = Some (JObj bf)
    /\ dict_get "text" bf = Some (JObj inner)
    /\ message
       = JObj (dict_set "blocks"
                 (JArr (list_set j
                          (JObj (dict_set "text"
                                   (JObj (dict_set "text" (JStr text) inner))
                                   bf))
                          blocks))
                 tf).
Proof.
  unfold assign_text.
  destruct template as [| | | | | | tf]; try discriminate.
  cbn [getitem_key].
  destruct (dict_get "blocks" tf) as [blocks |] eqn:Hb; [| discriminate].
  destruct (getitem_index i blocks) as [block |] eqn:Hi; [| discriminate].
  destruct (getitem_key "text" block) as [inner |] eqn:Ht; [| discriminate].
  destruct blocks as [| | | | | items |]; try discriminate.
  destruct block as [| | | | | | bf]; try discriminate.
  destruct inner as [| | | | | | inner]; try discriminate.
  cbn [getitem_index] in Hi. cbn [getitem_key] in Ht.
  destruct (norm_index i (List.length items)) as [j |] eqn:Hn;
    [| discriminate].
  injection Hi as Hi.
  destruct (dict_get "text" bf) as [x |] eqn:Hx; [| discriminate].
  injection Ht as ->.
  intros H; injection H as <-.
  exists tf, items, j, bf, inner.
  repeat split; try assumption.
  rewrite <- Hi. apply nth_error_nth'.
  now apply norm_index_bound in Hn.
Qed.

(** The store succeeds wherever its three reads do. *)
Lemma assign_text_succeeds (i : Z) (text : string)
  (tf : list (string * json)) (blocks : list json) (j : nat)
  (bf inner : list (string * json)) :
  dict_get "blocks" tf = Some (JArr blocks) ->
  norm_index i (List.length blocks) = Some j ->
  nth_error blocks j = Some (JObj bf) ->
  dict_get "text" bf = Some (JObj inner) ->
  assign_text i text (JObj tf)
  = Ok (JObj (dict_set "blocks"
                (JArr (list_set j
                         (JObj (dict_set "text"
                                  (JObj (dict_set "text" (JStr text) inner))
                                  bf))
                         blocks))
                tf)).
Proof.
  intros Hb Hn Hj Ht. unfold assign_text.
  cbn [getitem_key]. rewrite Hb. cbn [getitem_index]. rewrite Hn.
  rewrite (nth_error_nth _ _ JNull Hj).
  cbn [getitem_key]. rewrite Ht. reflexivity.
Qed.

Lemma assign_text_framed (i : Z) (text : string) (template message : json) :
  assign_text i text template = Ok message ->
  framed (fun n j => norm_index i n = Some j) template message.
Proof.
  intros H.
  destruct (assign_text_inversion _ _ _ _ H)
    as (tf & blocks & j & bf & inner & -> & Hb & Hn & Hj & Ht & ->).
  exists tf, (dict_set "blocks"
                (JArr (list_set j
                         (JObj (dict_set "text"
                                  (JObj (dict_set "text" (JStr text) inner))
                                  bf))
                         blocks)) tf),
    blocks, (list_set j
               (JObj (dict_set "text"
                        (JObj (dict_set "text" (JStr text) inner)) bf))
               blocks).
  repeat split; try assumption.
  - apply dict_get_set_same.
  - now apply same_but_at_dict_set with (x := JArr blocks).
  - apply list_set_length.
  - intros j' Hj'. apply nth_error_list_set_other. congruence.
  - apply map_list_set_same with (y := JObj bf); [exact Hj |].
    now apply strip_text_store.
Qed.

Lemma framed_trans (P Q : nat -> nat -> Prop) (a b c : json) :
  framed P a b -> framed Q b c -> framed (fun n j => P n j \/ Q n j) a c.
Proof.
  intros (tf & mf & bl & bl' & -> & -> & Hb & Hb' & Hs & Hl & Hn & Hm)
         (tf2 & mf2 & bl2 & bl2' & E & -> & Hb2 & Hb2' & Hs2 & Hl2 & Hn2 & Hm2).
  injection E as <-. rewrite Hb' in Hb2. injection Hb2 as <-.
  exists tf, mf2, bl, bl2'. repeat split; try assumption.
  - eapply same_but_at_trans; eassumption.
  - congruence.
  - intros j Hj. rewrite Hn2, Hn; [reflexivity | tauto |].
    rewrite Hl. tauto.
  - congruence.
Qed.

(* ------------------------------------------------------------------ *)
(** ** The message builder *)

Lemma outcome_get_json (f : file_outcome) (filename : string) :
  outcome (get_json f filename)
  = match f with
    | FileJson data => Ok data
    | FileNotFoundError | FileJSONDecodeError => Ok (JArr [])
    | FileOtherError => Raise OSError
    end.
Proof. destruct f; reflexivity. Qed.

Lemma norm_index_touched (n j : nat) :
  (norm_index 0 n = Some j \/ norm_index 1 n = Some j)
  \/ norm_index (-2) n = Some j ->
  j = 0%nat \/ j = 1%nat \/ (j + 2)%nat = n.
Proof.
  intros [[H | H] | H]; apply norm_index_position in H.
  - change (0 <? 0) with false in H. lia.
  - change (1 <? 0) with false in H. lia.
  - change (-2 <? 0) with true in H. lia.
Qed.

Section MessageBuilder.

Variable py_repr : json -> string.
Variable urlparse : json -> result (string * string).

(** A returned message is the loaded template after the three stores. *)
Lemma build_slack_message_inversion (w : world) (cfg : settings) (i : nat)
  (overdue_docs : list entry) (pages_url message : json) :
  outcome (build_slack_message py_repr urlparse w cfg i overdue_docs pages_url)
  = Ok (Some message) ->
  exists (template t1 t2 : json) (text : string),
    template_file w i = FileJson template
    /\ list_text py_repr urlparse pages_url overdue_docs "" = Ok text
    /\ assign_text 0 (header_text overdue_docs) template = Ok t1
    /\ assign_text 1 (list_heading_text cfg overdue_docs) t1 = Ok t2
    /\ assign_text (-2) text t2 = Ok message.
Proof.
  unfold build_slack_message.
  rewrite outcome_bind, outcome_get_json.
  destruct (template_file w i) as [template | | |]; try discriminate.
  - destruct (truthy template); [| discriminate].
    rewrite outcome_bind, outcome_lift.
    destruct (list_text py_repr urlparse pages_url overdue_docs "")
      as [text |]; [| discriminate].
    rewrite outcome_bind, outcome_catch, outcome_bind, outcome_lift.
    destruct (assign_text 0 (header_text overdue_docs) template)
      as [t1 |] eqn:H1; [| discriminate].
    rewrite outcome_bind, outcome_lift.
    destruct (assign_text 1 (list_heading_text cfg overdue_docs) t1)
      as [t2 |] eqn:H2; [| discriminate].
    rewrite outcome_bind, outcome_lift.
    destruct (assign_text (-2) text t2) as [t3 |] eqn:H3; [| discriminate].
    cbn. intros H; injection H as <-.
    exists template, t1, t2, text. auto.
Qed.

(** C5: a message that [build_slack_message] returns has the fields of
    the loaded template, with the same value at every key but [blocks];
    its [blocks] list has the length of the template's; every block at a
    position other than 0, 1 and the last but one is the template's block;
    and every block is the template's block once the text at
    [block['text']['text']] is left out of both. *)
Theorem build_slack_message_changes_three_texts (w : world) (cfg : settings)
  (i : nat) (overdue_docs : list entry) (pages_url message : json) :
  outcome (build_slack_message py_repr urlparse w cfg i overdue_docs pages_url)
  = Ok (Some message) ->
  exists (tf mf : list (string * json)) (blocks blocks' : list json),
    template_file w i = FileJson (JObj tf)
    /\ message = JObj mf
    /\ dict_get "blocks" tf = Some (JArr blocks)
    /\ dict_get "blocks" mf = Some (JArr blocks')
    /\ same_but_at "blocks" tf mf
    /\ List.length blocks' = List.length blocks
    /\ (forall j : nat,
           j <> 0%nat -> j <> 1%nat -> (j + 2)%nat <> List.length blocks ->
           nth_error blocks' j = nth_error blocks j)
    /\ map strip_text blocks' = map strip_text blocks.
Proof.
  intros H.
  destruct (build_slack_message_inversion _ _ _ _ _ _ H)
    as (template & t1 & t2 & text & Hf & _ & H1 & H2 & H3).
  apply assign_text_framed in H1, H2, H3.
  pose proof (framed_trans _ _ _ _ _ (framed_trans _ _ _ _ _ H1 H2) H3) as F.
  destruct F as (tf & mf & bl & bl' & -> & -> & Hb & Hb' & Hs & Hl & Hn & Hm).
  exists tf, mf, bl, bl'. repeat split; try assumption.
  intros j H0 H1' H2'. apply Hn. intros Ht.
  apply norm_index_touched in Ht. lia.
Qed.

End MessageBuilder.

Lemma build_slack_message_changes_three_texts_witness :
  exists (tf mf : list (string * json)) (blocks blocks' : list json),
    sample_template = JObj tf
    /\ dict_get "blocks" tf = Some (JArr blocks)
    /\ dict_get "blocks" mf = Some (JArr blocks')
    /\ nth_error blocks' 3 = nth_error blocks 3
    /\ map strip_text blocks' = map strip_text blocks.
Proof.
  destruct (build_slack_message_changes_three_texts sample_repr sample_urlparse
              (sample_world sample_inventory sample_template) (settings_with 3) 0
              [mk_entry (JStr "C") (JStr "c.html") 366]
              (JStr "http://a.test/inv")
              (JObj [("blocks",
                 JArr [text_block "header"
                         ":rocco-docco-quokka: Hello. :paw_prints: This is Rocco, your friendly docco quokka. I've found 1 page overdue for review.";
                       text_block "section" "Here is the full list:";
                       text_block "section"
                         (list_line sample_repr "http://a.test/"
                            (mk_entry (JStr "C") (JStr "c.html") 366));
                       text_block "context" "github.com/ministryofjustice"])]))
    as (tf & mf & blocks & blocks' & Hf & _ & Hb & Hb' & _ & _ & Hn & Hm).
  - vm_compute. reflexivity.
  - exists tf, mf, blocks, blocks'.
    injection Hf as Hf. rewrite <- Hf in *.
    injection Hb as Hb. rewrite <- Hb in *.
    repeat split; try assumption; try reflexivity.
    apply Hn; simpl; lia.
Defined.

(* ------------------------------------------------------------------ *)
(** ** The message builder on a template of the documented shape *)

Lemma string_append_assoc (a b c : string) :
  ((a ++ b) ++ c)%string = (a ++ (b ++ c))%string.
Proof. induction a as [| x a IH]; simpl; [reflexivity | now rewrite IH]. Qed.

Lemma string_append_empty (s : string) : (s ++ "")%string = s.
Proof. induction s as [| c s IH]; simpl; [reflexivity | now rewrite IH]. Qed.

Lemma has_text_object_inversion (block : json) :
  has_text_object block = true ->
  exists bf inner : list (string * json),
    block = JObj bf /\ dict_get "text" bf = Some (JObj inner).
Proof.
  destruct block as [| | | | | | bf]; try discriminate.
  unfold has_text_object.
  destruct (dict_get "text" bf) as [[| | | | | | inner] |] eqn:E;
    try discriminate.
  intros _. now exists bf, inner.
Qed.

Lemma forallb_nth_error {A : Type} (p : A -> bool) (l : list A) (j : nat)
  (x : A) :
  forallb p l = true -> nth_error l j = Some x -> p x = true.
Proof.
  intros H Hj. apply nth_error_In in Hj.
  now apply (proj1 (forallb_forall p l) H).
Qed.

(** On a well-shaped template a store at a position of the list succeeds,
    keeps the shape, puts the text at that position and leaves the texts
    at the other positions alone. *)
Lemma assign_text_well_shaped (n : nat) (i : Z) (j : nat) (text : string)
  (template : json) :
  well_shaped n template ->
  norm_index i n = Some j ->
  exists message : json,
    assign_text i text template = Ok message
    /\ well_shaped n message
    /\ block_text j message = Some (JStr text)
    /\ forall j' : nat,
         j' <> j -> block_text j' message = block_text j' template.
Proof.
  intros (tf & blocks & -> & Hb & Hlen & Hall) Hn.
  subst n.
  pose proof (norm_index_bound _ _ _ Hn) as Hlt.
  destruct (nth_error blocks j) as [block |] eqn:Hj;
    [| apply nth_error_None in Hj; lia].
  destruct (has_text_object_inversion block
              (forallb_nth_error _ _ _ _ Hall Hj))
    as (bf & inner & -> & Ht).
  eexists. split; [now apply (assign_text_succeeds i text tf blocks j bf inner) |].
  split; [| split].
  - eexists _, _. split; [reflexivity |].
    split; [apply dict_get_set_same |].
    split; [apply list_set_length |].
    apply forallb_list_set; [exact Hall | apply has_text_object_store].
  - unfold block_text. rewrite dict_get_set_same.
    rewrite nth_error_list_set_same by exact Hlt.
    now rewrite !dict_get_set_same.
  - intros j' Hne. unfold block_text. rewrite dict_get_set_same, Hb.
    now rewrite nth_error_list_set_other by exact Hne.
Qed.

Section MessageText.

Variable py_repr : json -> string.
Variable urlparse : json -> result (string * string).

(** The list text is what was there before, followed by nothing when there
    is no entry and by text that starts with the bullet otherwise. *)
Lemma list_text_starts_with_bullet (pages_url : json)
  (overdue_docs : list entry) :
  forall (acc text : string),
    list_text py_repr urlparse pages_url overdue_docs acc = Ok text ->
    (overdue_docs = [] /\ text = acc)
    \/ exists s : string, text = (acc ++ ("â€¢ <" ++ s))%string.
Proof.
  induction overdue_docs as [| doc rest IH]; intros acc text; simpl.
  - intros H; injection H as <-. now left.
  - destruct (urlparse pages_url) as [[scheme netloc] | e]; [| discriminate].
    intros H. right.
    destruct (IH _ _ H) as [[_ ->] | [s ->]].
    + unfold list_line. rewrite !string_append_assoc. eexists; reflexivity.
    + unfold list_line. rewrite !string_append_assoc. eexists; reflexivity.
Qed.

Lemma list_text_is_not_the_greeting (pages_url : json)
  (overdue_docs : list entry) (text : string) :
  list_text py_repr urlparse pages_url overdue_docs "" = Ok text ->
  text <> header_text overdue_docs.
Proof.
  intros H. unfold header_text. cbn [String.append].
  destruct (list_text_starts_with_bullet _ _ _ _ H) as [[_ ->] | [s ->]];
    cbn [String.append]; discriminate.
Qed.

Lemma list_text_returns (pages_url : json) (p : string * string)
  (overdue_docs : list entry) :
  urlparse pages_url = Ok p ->
  forall acc : string,
  exists text : string,
    list_text py_repr urlparse pages_url overdue_docs acc = Ok text.
Proof.
  intros Hp. induction overdue_docs as [| doc rest IH]; intros acc; simpl.
  - now exists acc.
  - rewrite Hp. destruct p as [scheme netloc]. apply IH.
Qed.

Lemma list_text_accumulates (pages_url : json) (scheme netloc : string)
  (overdue_docs : list entry) :
  urlparse pages_url = Ok (scheme, netloc) ->
  forall acc : string,
    list_text py_repr urlparse pages_url overdue_docs acc
    = Ok (acc ++ fold_right String.append ""
                   (map (list_line py_repr (scheme ++ "://" ++ netloc ++ "/"))
                      overdue_docs))%string.
Proof.
  intros Hp. induction overdue_docs as [| doc rest IH]; intros acc; simpl.
  - now rewrite string_append_empty.
  - rewrite Hp, IH. now rewrite string_append_assoc.
Qed.

(** C10, amended: with a template of exactly two blocks, each with an
    object at its key [text], and an inventory URL that [urlparse] accepts,
    the builder returns a message and logs no warning: it opens the
    template file and logs the message at debug level, nothing else. The
    message has the two blocks; the text of the first is the bulleted list,
    one line per entry in the order of the entries, and not the greeting;
    the text of the second is the list heading. *)
Theorem two_block_template_loses_greeting (w : world) (cfg : settings)
  (i : nat) (overdue_docs : list entry) (pages_url : json)
  (tf : list (string * json)) (b0 b1 : json) (scheme netloc : string) :
  template_file w i = FileJson (JObj tf) ->
  dict_get "blocks" tf = Some (JArr [b0; b1]) ->
  has_text_object b0 = true ->
  has_text_object b1 = true ->
  urlparse pages_url = Ok (scheme, netloc) ->
  exists message : json,
    build_slack_message py_repr urlparse w cfg i overdue_docs pages_url
    = ([OpenFile slack_template_filename; Log DEBUG (DumpOfMessage message)],
       Ok (Some message))
    /\ block_count message = Some 2%nat
    /\ block_text 0 message
       = Some (JStr (fold_right String.append ""
                       (map (list_line py_repr
                               (scheme ++ "://" ++ netloc ++ "/"))
                          overdue_docs)))
    /\ block_text 0 message <> Some (JStr (header_text overdue_docs))
    /\ block_text 1 message
       = Some (JStr (list_heading_text cfg overdue_docs)).
Proof.
  intros Hf Hb H0 H1 Hp.
  set (text := fold_right String.append ""
                 (map (list_line py_repr (scheme ++ "://" ++ netloc ++ "/"))
                    overdue_docs)).
  assert (Htext : list_text py_repr urlparse pages_url overdue_docs ""
                  = Ok text)
    by apply (list_text_accumulates pages_url scheme netloc overdue_docs Hp "").
  assert (Hshape : well_shaped 2 (JObj tf)).
  { exists tf, [b0; b1]. repeat split; try assumption.
    simpl. now rewrite H0, H1. }
  destruct (assign_text_well_shaped 2 0 0 (header_text overdue_docs) _
              Hshape eq_refl) as (t1 & E1 & S1 & _ & _).
  destruct (assign_text_well_shaped 2 1 1 (list_heading_text cfg overdue_docs)
              _ S1 eq_refl) as (t2 & E2 & S2 & T2 & _).
  destruct (assign_text_well_shaped 2 (-2) 0 text _ S2 eq_refl)
    as (t3 & E3 & S3 & T3 & K3).
  exists t3. split; [| split; [| split; [| split]]].
  - unfold build_slack_message. rewrite Hf.
    assert (Htruthy : truthy (JObj tf) = true)
      by (destruct tf; [discriminate | reflexivity]).
    unfold get_json, bind at 1 2, emit, ret. rewrite Htruthy.
    rewrite Htext, E1. unfold lift, bind, catch, ret, emit.
    rewrite E2, E3. reflexivity.
  - destruct S3 as (mf & blocks & -> & Hmb & Hlen & _).
    unfold block_count. now rewrite Hmb, Hlen.
  - exact T3.
  - rewrite T3. intros H. injection H as H.
    now apply (list_text_is_not_the_greeting pages_url overdue_docs text).
  - rewrite K3 by discriminate. exact T2.
Qed.

End MessageText.

Lemma two_block_template_loses_greeting_witness :
  exists message : json,
    build_slack_message sample_repr sample_urlparse
      (sample_world sample_inventory two_block_template) (settings_with 3) 0
      [mk_entry (JStr "C") (JStr "c.html") 366] (JStr "http://a.test/inv")
    = ([OpenFile slack_template_filename; Log DEBUG (DumpOfMessage message)],
       Ok (Some message))
    /\ block_text 0 message
       = Some (JStr (list_line sample_repr "http://a.test/"
                       (mk_entry (JStr "C") (JStr "c.html") 366)))
    /\ block_text 1 message = Some (JStr "Here is the full list:").
Proof.
  destruct (two_block_template_loses_greeting sample_repr sample_urlparse
              (sample_world sample_inventory two_block_template)
              (settings_with 3) 0 [mk_entry (JStr "C") (JStr "c.html") 366]
              (JStr "http://a.test/inv")
              [("blocks",
                JArr [text_block "header" "title";
                      text_block "section" "heading"])]
              (text_block "header" "title") (text_block "section" "heading")
              "http" "a.test")
    as (message & Hrun & _ & H0 & _ & H1);
    try reflexivity.
  exists message. split; [exact Hrun | split; [exact H0 | exact H1]].
Defined.

(** C10, as stated, fails: a template whose [blocks] list has exactly two
    entries, both the empty object, makes the first store raise [KeyError];
    the builder logs a warning and returns nothing. And with the two-block
    template of the documented shape and an inventory URL that is the
    number 8, [urlparse] raises and the exception leaves the builder. *)
Lemma two_block_template_without_text :
  build_slack_message sample_repr sample_urlparse
    (sample_world sample_inventory
       (JObj [("blocks", JArr [JObj []; JObj []])]))
    (settings_with 3) 0
    [mk_entry (JStr "C") (JStr "c.html") 366] (JStr "http://a.test/inv")
  = ([OpenFile slack_template_filename;
      Log WARNING (CouldNotBuildMessage KeyError)], Ok None)
  /\ build_slack_message sample_repr sample_urlparse
       (sample_world sample_inventory two_block_template)
       (settings_with 3) 0
       [mk_entry (JStr "C") (JStr "c.html") 366] (JInt 8)
     = ([OpenFile slack_template_filename], Raise AttributeError).
Proof. split; reflexivity. Qed.

(* ------------------------------------------------------------------ *)
(** ** The list heading in a run *)

(** The builder sees the selector's output, which is already cut to the
    configured length: with a bound that is not negative the heading is
    always the full-list one. *)
Lemma heading_after_selector (cfg : settings) (now_at : nat -> datetime)
  (doc_list : json) (out : list entry) :
  outcome (get_out_of_date_docs cfg now_at doc_list) = Ok out ->
  0 <= max_docs cfg ->
  list_heading_text cfg out = "Here is the full list:".
Proof.
  unfold get_out_of_date_docs.
  rewrite outcome_bind, outcome_lift.
  destruct (py_iter doc_list) as [docs |]; [| discriminate].
  rewrite outcome_bind.
  destruct (outcome (examine_all now_at 0 docs [])) as [found |];
    [| discriminate].
  cbn [outcome ret snd]. intros H; injection H as <-. intros Hmax.
  unfold list_heading_text.
  destruct (max_docs cfg =? 0) eqn:E0; [reflexivity |].
  apply Z.eqb_neq in E0. cbn [orb].
  destruct (max_docs cfg >? 0) eqn:Epos; [| lia].
  rewrite slice_to_positive by lia.
  rewrite length_firstn.
  destruct (Z.of_nat (Nat.min (Z.to_nat (max_docs cfg))
                        (List.length (sort_desc found))) <=? max_docs cfg)
    eqn:Ele; [reflexivity |].
  apply Z.leb_gt in Ele. lia.
Qed.

(** C4, at MAX_DOCS=3 with five qualifying records: the one message the
    run posts greets with a count of 3 and is headed "Here is the full
    list:", though the full set does not fit the maximum. *)
Lemma heading_of_truncated_list :
  List.length (qualifying sample_clock 0 sample_records) = 5%nat
  /\ map (block_text 1)
       (posted_bodies
          (fst (script sample_repr sample_urlparse sample_int
                  (sample_environ (Some "3"))
                  (sample_world sample_inventory sample_template))))
     = [Some (JStr "Here is the full list:")].
Proof. split; vm_compute; reflexivity. Qed.

(* ------------------------------------------------------------------ *)
(** ** Basic facts: who posts *)

Lemma run_eq {A : Type} (m : M A) : m = (trace m, outcome m).
Proof. now destruct m. Qed.

Lemma quiet_ret {A : Type} (a : A) : quiet (ret a).
Proof. reflexivity. Qed.

Lemma quiet_lift {A : Type} (r : result A) : quiet (lift r).
Proof. reflexivity. Qed.

Lemma quiet_emit (ev : event) : is_post ev = false -> quiet (emit ev).
Proof. unfold quiet. simpl. now intros ->. Qed.

Lemma quiet_bind {A B : Type} (m : M A) (f : A -> M B) :
  quiet m -> (forall a : A, quiet (f a)) -> quiet (bind m f).
Proof.
  unfold quiet. intros Hm Hf. rewrite trace_bind.
  destruct (outcome m) as [a |]; [| exact Hm].
  now rewrite existsb_app, Hm, Hf.
Qed.

Lemma quiet_catch {A : Type} (m : M A) (h : exn -> M A) :
  quiet m -> (forall e : exn, quiet (h e)) -> quiet (catch m h).
Proof.
  unfold quiet. intros Hm Hh. destruct m as [t [a | e]]; simpl in *.
  - exact Hm.
  - specialize (Hh e). destruct (h e) as [t' r]. simpl in *.
    now rewrite existsb_app, Hm, Hh.
Qed.

(** A post in the trace of [m ;; f] when [m] is quiet: [m] returned and the
    post is in what followed. *)
Lemma post_in_bind {A B : Type} (m : M A) (f : A -> M B) :
  quiet m ->
  existsb is_post (trace (bind m f)) = true ->
  exists a : A, outcome m = Ok a /\ existsb is_post (trace (f a)) = true.
Proof.
  unfold quiet. intros Hm. rewrite trace_bind.
  destruct (outcome m) as [a |]; [| congruence].
  rewrite existsb_app, Hm. simpl. intros H. now exists a.
Qed.

Lemma quiet_get_doc_list (w : world) (i : nat) (u : json) :
  quiet (get_doc_list w i u).
Proof.
  unfold get_doc_list.
  apply quiet_bind; [now apply quiet_emit |]. intros _.
  destruct (http_get w i u) as [| status_code [data |]].
  - apply quiet_bind; [now apply quiet_emit | intros; apply quiet_ret].
  - destruct (status_code =? 200); [destruct (truthy data) |];
      try apply quiet_ret;
      (apply quiet_bind; [now apply quiet_emit | intros; apply quiet_ret]).
  - destruct (status_code =? 200);
      (apply quiet_bind; [now apply quiet_emit | intros; apply quiet_ret]).
Qed.

Lemma quiet_examine (now : datetime) (doc : json) (acc : list entry) :
  quiet (examine now doc acc).
Proof.
  unfold examine.
  apply quiet_bind; [apply quiet_lift | intros ti].
  apply quiet_bind; [apply quiet_lift | intros u].
  apply quiet_bind; [apply quiet_lift | intros review].
  destruct (truthy review && truthy u); [| apply quiet_ret].
  apply quiet_catch.
  - apply quiet_bind; [apply quiet_lift | intros d].
    destruct (days (datetime_sub now d) >? 0); apply quiet_ret.
  - intros _. apply quiet_bind; [now apply quiet_emit | intros; apply quiet_ret].
Qed.

Lemma quiet_examine_all (now_at : nat -> datetime) (docs : list json) :
  forall (i : nat) (acc : list entry), quiet (examine_all now_at i docs acc).
Proof.
  induction docs as [| doc rest IH]; intros i acc; simpl.
  - apply quiet_ret.
  - apply quiet_bind; [apply quiet_examine | intros; apply IH].
Qed.

Lemma quiet_get_out_of_date_docs (cfg : settings) (now_at : nat -> datetime)
  (doc_list : json) :
  quiet (get_out_of_date_docs cfg now_at doc_list).
Proof.
  unfold get_out_of_date_docs.
  apply quiet_bind; [apply quiet_lift | intros docs].
  apply quiet_bind; [apply quiet_examine_all | intros; apply quiet_ret].
Qed.

Lemma get_doc_list_some (w : world) (i : nat) (u data : json) :
  outcome (get_doc_list w i u) = Ok (Some data) ->
  http_get w i u = Response 200 (Parsed data) /\ truthy data = true.
Proof.
  unfold get_doc_list. rewrite outcome_bind. simpl outcome at 1. cbv iota.
  destruct (http_get w i u) as [| status_code [d |]]; try discriminate.
  - destruct (status_code =? 200) eqn:Es; [| discriminate].
    apply Z.eqb_eq in Es. subst.
    destruct (truthy d) eqn:Et; [| discriminate].
    intros H; injection H as <-. auto.
  - destruct (status_code =? 200); discriminate.
Qed.


Lemma nonempty_true {A : Type} (l : list A) : nonempty l = true -> l <> [].
Proof. destruct l; [discriminate | discriminate]. Qed.

Section MainLoop.

Variable py_repr : json -> string.
Variable urlparse : json -> result (string * string).

Lemma quiet_build_slack_message (w : world) (cfg : settings) (i : nat)
  (overdue_docs : list entry) (pages_url : json) :
  quiet (build_slack_message py_repr urlparse w cfg i overdue_docs pages_url).
Proof.
  unfold build_slack_message.
  apply quiet_bind.
  - unfold get_json. apply quiet_bind; [now apply quiet_emit | intros _].
    destruct (template_file w i); try apply quiet_ret;
      try (apply quiet_bind; [now apply quiet_emit | intros; apply quiet_ret]).
    reflexivity.
  - intros template. destruct (truthy template).
    + apply quiet_bind; [apply quiet_lift | intros text].
      apply quiet_bind.
      * apply quiet_catch.
        -- repeat (apply quiet_bind; [apply quiet_lift | intros ?]).
           apply quiet_ret.
        -- intros e.
           apply quiet_bind; [now apply quiet_emit | intros; apply quiet_ret].
      * intros [message |]; [| apply quiet_ret].
        apply quiet_bind; [now apply quiet_emit | intros; apply quiet_ret].
    + apply quiet_bind; [now apply quiet_emit | intros; apply quiet_ret].
Qed.

(** The posts of a run come from the URLs of its page list. *)
Lemma post_in_process_urls (w : world) (cfg : settings) (urls : list json) :
  forall i0 : nat,
    existsb is_post (trace (process_urls py_repr urlparse w cfg i0 urls)) = true ->
    exists (k : nat) (u : json),
      nth_error urls k = Some u
      /\ existsb is_post
           (trace (process_url py_repr urlparse w cfg (i0 + k) u)) = true.
Proof.
  induction urls as [| u rest IH]; intros i0; simpl.
  - discriminate.
  - rewrite trace_bind.
    destruct (outcome (process_url py_repr urlparse w cfg i0 u)).
    + rewrite existsb_app. intros H. apply orb_true_iff in H as [H | H].
      * exists 0%nat, u. now rewrite Nat.add_0_r.
      * destruct (IH _ H) as (k & u' & Hk & Hp).
        exists (S k), u'. now rewrite Nat.add_succ_r.
    + intros H. exists 0%nat, u. now rewrite Nat.add_0_r.
Qed.

(** C8: in the processing of an inventory URL a POST occurs only if the
    fetcher returned a payload, the selector returned a sequence of
    entries that is not empty, and the webhook URL is not empty. If the
    selector returned the empty sequence, or the webhook URL is empty, the
    URL's processing ends normally and its events are those of the fetcher
    and of the selector, followed by the info-level log of the entries if
    there are any: no POST, no warning about the notification. Every POST
    of a run belongs to the processing of one URL of the page list, and
    after a URL processed normally the run goes on with the next one. *)
Theorem notification_needs_entries_and_webhook (w : world) (cfg : settings) :
  (forall (i : nat) (pages_url : json),
      existsb is_post
        (trace (process_url py_repr urlparse w cfg i pages_url)) = true ->
      exists (doc_list : json) (overdue_docs : list entry),
        outcome (get_doc_list w i pages_url) = Ok (Some doc_list)
        /\ outcome (get_out_of_date_docs cfg (clock w i) doc_list)
           = Ok overdue_docs
        /\ overdue_docs <> []
        /\ slack_webhook_url cfg <> "")
  /\ (forall (i : nat) (pages_url doc_list : json)
             (overdue_docs : list entry),
         outcome (get_doc_list w i pages_url) = Ok (Some doc_list) ->
         outcome (get_out_of_date_docs cfg (clock w i) doc_list)
         = Ok overdue_docs ->
         overdue_docs = [] \/ slack_webhook_url cfg = "" ->
         process_url py_repr urlparse w cfg i pages_url
         = (trace (get_doc_list w i pages_url)
            ++ trace (get_out_of_date_docs cfg (clock w i) doc_list)
            ++ (if nonempty overdue_docs
                then [Log INFO (OverdueDocuments overdue_docs)] else []),
            Ok tt))
  /\ (forall (urls : list json),
         existsb is_post
           (trace (process_urls py_repr urlparse w cfg 0 urls)) = true ->
         exists (k : nat) (u : json),
           nth_error urls k = Some u
           /\ existsb is_post
                (trace (process_url py_repr urlparse w cfg k u)) = true)
  /\ (forall (i : nat) (pages_url : json) (rest : list json),
         outcome (process_url py_repr urlparse w cfg i pages_url) = Ok tt ->
         process_urls py_repr urlparse w cfg i (pages_url :: rest)
         = (trace (process_url py_repr urlparse w cfg i pages_url)
            ++ trace (process_urls py_repr urlparse w cfg (S i) rest),
            outcome (process_urls py_repr urlparse w cfg (S i) rest))).
Proof.
  split; [| split; [| split]].
  - intros i pages_url H. unfold process_url in H.
    apply post_in_bind in H as ([doc_list |] & Hg & H);
      [| discriminate | apply quiet_get_doc_list].
    destruct (truthy doc_list); [| discriminate].
    apply post_in_bind in H as (overdue_docs & Hs & H);
      [| apply quiet_get_out_of_date_docs].
    destruct (nonempty overdue_docs) eqn:Hne; [| discriminate].
    apply post_in_bind in H as (_ & _ & H); [| now apply quiet_emit].
    destruct (String.eqb (slack_webhook_url cfg) "") eqn:Hw; [discriminate |].
    exists doc_list, overdue_docs. repeat split; try assumption.
    + now apply nonempty_true.
    + now apply String.eqb_neq.
  - intros i pages_url doc_list overdue_docs Hg Hs Hskip.
    unfold process_url.
    destruct (get_doc_list_some _ _ _ _ Hg) as [_ Ht].
    rewrite (run_eq (get_doc_list w i pages_url)), Hg.
    cbn [bind trace outcome fst snd]. rewrite Ht.
    rewrite (run_eq (get_out_of_date_docs cfg (clock w i) doc_list)), Hs.
    cbn [bind trace outcome fst snd].
    destruct overdue_docs as [| e rest]; cbn [nonempty].
    + cbn. now rewrite !app_nil_r.
    + destruct Hskip as [Hskip | Hskip]; [discriminate |].
      rewrite Hskip. cbn. reflexivity.
  - intros urls H. apply (post_in_process_urls w cfg urls 0 H).
  - intros i pages_url rest H. simpl.
    rewrite (run_eq (process_url py_repr urlparse w cfg i pages_url)), H.
    cbn [bind trace outcome fst snd].
    now destruct (process_urls py_repr urlparse w cfg (S i) rest).
Qed.

End MainLoop.

Lemma notification_needs_entries_and_webhook_witness :
  process_url sample_repr sample_urlparse
    (sample_world sample_inventory sample_template) settings_without_webhook
    0 (JStr "http://a.test/inv")
  = ([HttpGet (JStr "http://a.test/inv");
      Log WARNING (CouldNotParseReviewAgain (JStr "next week") (JStr "e.html"));
      Log INFO
        (OverdueDocuments
           [ mk_entry (JStr "C") (JStr "c.html") 366;
             mk_entry (JStr "F") (JStr "f.html") 15;
             mk_entry (JStr "A") (JStr "a.html") 5;
             mk_entry (JStr "D") (JStr "d.html") 5;
             mk_entry (JStr "H") (JStr "h.html") 1 ])],
     Ok tt)
  /\ exists (doc_list : json) (overdue_docs : list entry),
       outcome (get_doc_list failing_world 7 (JStr "http://a.test/7"))
       = Ok (Some doc_list)
       /\ outcome (get_out_of_date_docs (settings_with 2)
                     (clock failing_world 7) doc_list) = Ok overdue_docs
       /\ overdue_docs <> [].
Proof.
  split.
  - destruct (notification_needs_entries_and_webhook sample_repr
                sample_urlparse
                (sample_world sample_inventory sample_template)
                settings_without_webhook) as (_ & Hskip & _ & _).
    rewrite (Hskip 0%nat (JStr "http://a.test/inv") sample_inventory
               [ mk_entry (JStr "C") (JStr "c.html") 366;
                 mk_entry (JStr "F") (JStr "f.html") 15;
                 mk_entry (JStr "A") (JStr "a.html") 5;
                 mk_entry (JStr "D") (JStr "d.html") 5;
                 mk_entry (JStr "H") (JStr "h.html") 1 ]).
    + vm_compute. reflexivity.
    + vm_compute. reflexivity.
    + vm_compute. reflexivity.
    + right. reflexivity.
  - destruct (notification_needs_entries_and_webhook sample_repr
                sample_urlparse failing_world (settings_with 2))
      as (Hpost & _ & _ & _).
    destruct (Hpost 7%nat (JStr "http://a.test/7"))
      as (doc_list & overdue_docs & Hg & Hs & Hne & _).
    + vm_compute. reflexivity.
    + exists doc_list, overdue_docs. auto.
Defined.

(* ------------------------------------------------------------------ *)
(** ** The exit status *)


Section ExitStatus.

Variable py_repr : json -> string.
Variable urlparse : json -> result (string * string).
Variable py_int : string -> option Z.







End ExitStatus.





(* ------------------------------------------------------------------ *)
(** ** More on the overdue selector *)

(** Whenever the selector returns, its input was a sequence of objects and
    its answer is the sorted, cut qualifying set of that sequence. *)
Lemma selector_returned (cfg : settings) (now_at : nat -> datetime)
  (doc_list : json) (out : list entry) :
  outcome (get_out_of_date_docs cfg now_at doc_list) = Ok out ->
  exists records : list (list (string * json)),
    py_iter doc_list = Ok (map JObj records)
    /\ out = (let sorted := sort_desc (qualifying now_at 0 records) in
              slice_to (if max_docs cfg >? 0 then max_docs cfg
                        else Z.of_nat (List.length sorted)) sorted).
Proof.
  unfold get_out_of_date_docs. rewrite outcome_bind, outcome_lift.
  destruct (py_iter doc_list) as [items |]; [| discriminate].
  rewrite outcome_bind.
  destruct (forallb is_object items) eqn:Hall.
  - destruct (objects_are_records _ Hall) as [records ->].
    rewrite outcome_examine_all. cbn. intros H; injection H as <-.
    now exists records.
  - now rewrite outcome_examine_all_raises.
Qed.

Lemma sort_desc_in (x : entry) (l : list entry) :
  In x (sort_desc l) <-> In x l.
Proof.
  induction l as [| e rest IH]; simpl; [tauto |].
  rewrite insert_desc_in, IH. intuition congruence.
Qed.

Lemma firstn_in {A : Type} (n : nat) (l : list A) (x : A) :
  In x (firstn n l) -> In x l.
Proof.
  revert l. induction n as [| n IH]; intros [| y l]; simpl; try tauto.
  intros [-> | H]; [now left | right; now apply IH].
Qed.

Lemma qualifying_entry_overdue (now : datetime) (r : list (string * json))
  (e : entry) :
  qualifying_entry now r = Some e -> overdue_entry e.
Proof.
  unfold qualifying_entry, overdue_entry.
  destruct (truthy (field "url" r)) eqn:Hu; [| discriminate].
  destruct (calendar_date (field "reviewAgain" r)) as [d |]; [| discriminate].
  destruct (whole_days_between now d >? 0) eqn:Hpos; [| discriminate].
  intros H; injection H as <-. simpl. split; [lia | exact Hu].
Qed.

Lemma qualifying_length (now_at : nat -> datetime)
  (records : list (list (string * json))) :
  forall i : nat,
    (List.length (qualifying now_at i records) <= List.length records)%nat.
Proof.
  induction records as [| r rest IH]; intros i; simpl; [lia |].
  rewrite length_app. specialize (IH (S i)).
  destruct (qualifying_entry (now_at i) r); simpl; lia.
Qed.

(** The whole-day difference between a clock reading and a parsed date is
    the difference of their day numbers: the time of day plays no part. A
    record is overdue exactly when its date is before the day of the clock
    reading. *)
Theorem days_overdue_is_calendar_difference (now d : datetime) (v : json) :
  check_time_fields now = true ->
  strptime v = Ok d ->
  days (datetime_sub now d) = toordinal now - toordinal d
  /\ (0 < days (datetime_sub now d) <-> toordinal d < toordinal now).
Proof.
  intros Ht Hp.
  destruct (strptime_midnight _ _ Hp) as (Hh & Hm & Hs & Hu).
  assert (E : days (datetime_sub now d) = toordinal now - toordinal d).
  { rewrite days_datetime_sub.
    unfold whole_days_between, instant, microseconds_per_day.
    rewrite Hh, Hm, Hs, Hu.
    unfold check_time_fields in Ht.
    repeat rewrite andb_true_iff in Ht. repeat rewrite Z.leb_le in Ht.
    symmetry.
    apply Z.div_unique with
      (r := (hour now * 3600 + minute now * 60 + second now) * 1000000
            + microsecond now); lia. }
  split; [exact E |]. rewrite E. split; intros H; lia.
Qed.

Lemma days_overdue_is_calendar_difference_witness :
  days (datetime_sub sample_now (mk_datetime 2024 3 10 0 0 0 0)) = 5.
Proof.
  destruct (days_overdue_is_calendar_difference sample_now
              (mk_datetime 2024 3 10 0 0 0 0) (JStr "2024-03-10"))
    as [E _]; [reflexivity | reflexivity |].
  rewrite E. reflexivity.
Defined.

(** Whatever the selector is given, every entry it returns has a positive
    [days_overdue] and a [url] that is not empty; it returns at most one
    entry per item of its input, and at most [max_docs] entries when that
    bound is positive. *)
Theorem selector_entries_are_overdue (cfg : settings)
  (now_at : nat -> datetime) (doc_list : json) (out : list entry) :
  outcome (get_out_of_date_docs cfg now_at doc_list) = Ok out ->
  Forall overdue_entry out
  /\ (exists items : list json,
         py_iter doc_list = Ok items
         /\ (List.length out <= List.length items)%nat)
  /\ (0 < max_docs cfg -> Z.of_nat (List.length out) <= max_docs cfg).
Proof.
  intros H. destruct (selector_returned _ _ _ _ H) as (records & Hi & ->).
  cbv zeta.
  destruct (selector_slice (max_docs cfg)
              (sort_desc (qualifying now_at 0 records))) as [c Hc].
  split; [| split].
  - rewrite Hc. apply Forall_forall. intros e He.
    apply firstn_in in He. apply (proj1 (sort_desc_in _ _)) in He.
    apply (proj1 (in_qualifying _ _ _ _)) in He.
    destruct He as (j & r & _ & Hq).
    now apply qualifying_entry_overdue in Hq.
  - exists (map JObj records). split; [exact Hi |].
    rewrite Hc, length_firstn, sort_desc_length, length_map.
    pose proof (qualifying_length now_at records 0). lia.
  - intros Hpos. destruct (max_docs cfg >? 0) eqn:E; [| lia].
    rewrite slice_to_positive by exact Hpos. rewrite length_firstn. lia.
Qed.

Lemma selector_entries_are_overdue_witness :
  Forall overdue_entry
    [ mk_entry (JStr "C") (JStr "c.html") 366;
      mk_entry (JStr "F") (JStr "f.html") 15 ].
Proof.
  apply (selector_entries_are_overdue (settings_with 2) sample_clock
           sample_inventory).
  vm_compute. reflexivity.
Defined.

Lemma selector_without_bound (cfg : settings)
  (now_at : nat -> datetime) (records : list (list (string * json))) :
  max_docs cfg <= 0 ->
  outcome (get_out_of_date_docs cfg now_at (JArr (map JObj records)))
  = Ok (sort_desc (qualifying now_at 0 records)).
Proof.
  intros H. rewrite selector_on_records. cbv zeta.
  destruct (max_docs cfg >? 0) eqn:E; [lia |].
  now rewrite slice_to_length.
Qed.

(** A maximum that is zero or negative puts no bound on the answer: the
    selector returns the whole sorted qualifying set, as long as it is. *)
Theorem selector_unbounded_when_not_positive (cfg : settings)
  (now_at : nat -> datetime) (records : list (list (string * json))) :
  max_docs cfg <= 0 ->
  exists out : list entry,
    outcome (get_out_of_date_docs cfg now_at (JArr (map JObj records)))
    = Ok out
    /\ out = sort_desc (qualifying now_at 0 records)
    /\ List.length out = List.length (qualifying now_at 0 records).
Proof.
  intros H. rewrite selector_without_bound by exact H.
  eexists; split; [reflexivity | split; [reflexivity |]].
  apply sort_desc_length.
Qed.

Lemma selector_unbounded_when_not_positive_witness :
  exists out : list entry,
    outcome (get_out_of_date_docs (settings_with (-3)) sample_clock
               (JArr (map JObj sample_records))) = Ok out
    /\ List.length out = 5%nat.
Proof.
  destruct (selector_unbounded_when_not_positive (settings_with (-3))
              sample_clock sample_records) as (out & Hout & _ & Hlen).
  - simpl. lia.
  - exists out. split; [exact Hout |]. rewrite Hlen. vm_compute. reflexivity.
Defined.

Lemma insert_desc_permutation (e : entry) (l : list entry) :
  Permutation (insert_desc e l) (e :: l).
Proof.
  induction l as [| x rest IH]; simpl; [reflexivity |].
  destruct (days_overdue e <? days_overdue x); [| reflexivity].
  rewrite IH. apply perm_swap.
Qed.

Lemma sort_desc_permutation (l : list entry) : Permutation (sort_desc l) l.
Proof.
  induction l as [| e rest IH]; simpl; [reflexivity |].
  rewrite insert_desc_permutation. now constructor.
Qed.

Lemma descending_app (l1 l2 : list entry) :
  descending (l1 ++ l2) ->
  forall x y : entry, In x l1 -> In y l2 -> days_overdue y <= days_overdue x.
Proof.
  unfold descending.
  induction l1 as [| a l1 IH]; simpl; intros Hs x y Hx Hy; [contradiction |].
  inversion Hs as [| ? ? Hrest Hall]; subst.
  destruct Hx as [-> | Hx].
  - apply (proj1 (Forall_forall _ _) Hall). apply in_or_app. now right.
  - now apply (IH Hrest).
Qed.

(** The selector neither invents nor loses entries: its answer together
    with the entries it leaves out is a rearrangement of the qualifying
    set, and no entry left out is more overdue than an entry returned. *)
Theorem selector_keeps_the_most_overdue (cfg : settings)
  (now_at : nat -> datetime) (records : list (list (string * json))) :
  exists out dropped : list entry,
    outcome (get_out_of_date_docs cfg now_at (JArr (map JObj records)))
    = Ok out
    /\ Permutation (out ++ dropped) (qualifying now_at 0 records)
    /\ forall kept left_out : entry,
         In kept out -> In left_out dropped ->
         days_overdue left_out <= days_overdue kept.
Proof.
  rewrite selector_on_records. cbv zeta.
  destruct (selector_slice (max_docs cfg)
              (sort_desc (qualifying now_at 0 records))) as [c ->].
  exists (firstn c (sort_desc (qualifying now_at 0 records))),
         (skipn c (sort_desc (qualifying now_at 0 records))).
  split; [reflexivity | split].
  - rewrite firstn_skipn. apply sort_desc_permutation.
  - apply descending_app. rewrite firstn_skipn. apply sort_desc_descending.
Qed.

Lemma trace_examine (now : datetime) (r : list (string * json))
  (acc : list entry) :
  trace (examine now (JObj r) acc) = date_warning r.
Proof.
  unfold examine, date_warning, doc_get, field.
  set (u := match dict_get "url" r with Some v => v | None => JNull end).
  set (rv := match dict_get "reviewAgain" r with Some v => v | None => JNull end).
  cbn -[strptime datetime_sub truthy].
  destruct (truthy rv && truthy u); [| reflexivity].
  destruct (strptime rv) as [d | e]; cbn -[datetime_sub].
  - now destruct (days (datetime_sub now d) >? 0).
  - reflexivity.
Qed.

Lemma selector_trace_on_records (cfg : settings)
  (now_at : nat -> datetime) (records : list (list (string * json))) :
  trace (get_out_of_date_docs cfg now_at (JArr (map JObj records)))
  = flat_map date_warning records.
Proof.
  unfold get_out_of_date_docs.
  rewrite trace_bind, outcome_lift. simpl py_iter. cbv iota.
  rewrite trace_bind, outcome_examine_all. simpl. rewrite app_nil_r.
  generalize (@nil entry) as acc. generalize 0%nat as i.
  induction records as [| r rest IH]; intros i acc; simpl; [reflexivity |].
  rewrite trace_bind, outcome_examine, trace_examine. now rewrite IH.
Qed.

(** The selector logs one warning for each record whose [url] and
    [reviewAgain] are not empty and whose [reviewAgain] does not parse, in
    input order, and nothing else: a record without [url] or without
    [reviewAgain], one not yet due and one that qualifies are passed over
    in silence, and the clock and the maximum play no part. *)
Theorem selector_warns_on_unparseable_dates (cfg : settings)
  (now_at : nat -> datetime) (records : list (list (string * json))) :
  trace (get_out_of_date_docs cfg now_at (JArr (map JObj records)))
  = flat_map date_warning records
  /\ (forall r : list (string * json),
         date_warning r <> [] <->
         truthy (field "url" r) = true
         /\ truthy (field "reviewAgain" r) = true
         /\ calendar_date (field "reviewAgain" r) = None).
Proof.
  split; [apply selector_trace_on_records |].
  intros r. unfold date_warning, calendar_date.
  destruct (truthy (field "reviewAgain" r)), (truthy (field "url" r));
    cbn [andb];
    try (split; [intros H; now contradiction H | intros (? & ? & _); discriminate]).
  destruct (strptime (field "reviewAgain" r)).
  - split; [intros H; now contradiction H | intros (_ & _ & ?); discriminate].
  - split; [auto | discriminate].
Qed.

Lemma qualifying_constant_clock (now : datetime)
  (records : list (list (string * json))) :
  forall i : nat,
    qualifying (fun _ => now) i records
    = flat_map (fun r => option_list (qualifying_entry now r)) records.
Proof.
  induction records as [| r rest IH]; intros i; simpl; [reflexivity |].
  now rewrite IH.
Qed.

(** With one clock reading for the run and no bound, the order of the
    records in the input decides nothing but the order of the answer: two
    inputs that are rearrangements of each other yield answers that are
    rearrangements of each other. *)
Theorem selector_answer_up_to_input_order (cfg : settings) (now : datetime)
  (records records' : list (list (string * json))) :
  max_docs cfg <= 0 ->
  Permutation records records' ->
  exists out out' : list entry,
    outcome (get_out_of_date_docs cfg (fun _ => now) (JArr (map JObj records)))
    = Ok out
    /\ outcome (get_out_of_date_docs cfg (fun _ => now)
                  (JArr (map JObj records'))) = Ok out'
    /\ Permutation out out'.
Proof.
  intros Hmax Hperm.
  exists (sort_desc (qualifying (fun _ => now) 0 records)),
         (sort_desc (qualifying (fun _ => now) 0 records')).
  split; [now apply selector_without_bound |].
  split; [now apply selector_without_bound |].
  rewrite !sort_desc_permutation, !qualifying_constant_clock.
  now apply Permutation_flat_map.
Qed.

Lemma selector_keeps_the_most_overdue_witness :
  exists out dropped : list entry,
    outcome (get_out_of_date_docs (settings_with 3) sample_clock
               (JArr (map JObj sample_records))) = Ok out
    /\ Permutation (out ++ dropped) (qualifying sample_clock 0 sample_records).
Proof.
  destruct (selector_keeps_the_most_overdue (settings_with 3) sample_clock
              sample_records) as (out & dropped & Hout & Hperm & _).
  exists out, dropped. split; assumption.
Defined.

Lemma selector_answer_up_to_input_order_witness :
  exists out out' : list entry,
    outcome (get_out_of_date_docs (settings_with 0) (fun _ => sample_now)
               (JArr (map JObj [record "A" "a.html" "2024-03-10";
                                record "C" "c.html" "2023-03-15"]))) = Ok out
    /\ outcome (get_out_of_date_docs (settings_with 0) (fun _ => sample_now)
                  (JArr (map JObj [record "C" "c.html" "2023-03-15";
                                   record "A" "a.html" "2024-03-10"])))
       = Ok out'
    /\ Permutation out out'.
Proof.
  apply (selector_answer_up_to_input_order (settings_with 0) sample_now).
  - simpl. lia.
  - apply perm_swap.
Defined.

(* ------------------------------------------------------------------ *)
(** ** What [strptime] accepts *)

(** A check that holds on each number of a range holds on any number in
    the range. *)
Lemma checked_on_range (p : Z -> bool) (lo len : nat) (n : Z) :
  forallb p (map Z.of_nat (seq lo len)) = true ->
  Z.of_nat lo <= n < Z.of_nat (lo + len) ->
  p n = true.
Proof.
  intros Hall Hn. apply (proj1 (forallb_forall _ _) Hall).
  apply in_map_iff. exists (Z.to_nat n). split; [lia |].
  apply in_seq. lia.
Qed.

Lemma unicode_digit_ascii (n : Z) (rest : string) :
  0 <= n <= 9 ->
  unicode_digit (String (digit_char n) rest) = Some (n, rest).
Proof.
  intros H.
  assert (Eb : byte (digit_char n) = 48 + n).
  { apply Z.eqb_eq.
    apply (checked_on_range (fun k => byte (digit_char k) =? 48 + k) 0 10);
      [reflexivity | simpl; lia]. }
  assert (Ev : decimal_value (48 + n) = Some n).
  { pose (reads k := match decimal_value (48 + k) with
                     | Some v => v =? k
                     | None => false
                     end).
    assert (E : reads n = true)
      by (apply (checked_on_range reads 0 10); [reflexivity | simpl; lia]).
    unfold reads in E.
    destruct (decimal_value (48 + n)) as [v |]; [| discriminate].
    apply Z.eqb_eq in E. now subst. }
  unfold unicode_digit, decode_char. cbv zeta. rewrite Eb.
  destruct (48 + n <? 128) eqn:E; [| apply Z.ltb_ge in E; lia].
  now rewrite Ev.
Qed.

Lemma match_year_four_digits (y : Z) (rest : string) :
  0 <= y <= 9999 ->
  match_year (four_digits y ++ rest) = Some (y, rest).
Proof.
  intros H. unfold four_digits, match_year. cbn [String.append].
  assert (H1 : 0 <= y / 1000 <= 9).
  { split; [apply Z.div_pos; lia |].
    assert (y / 1000 < 10) by (apply Z.div_lt_upper_bound; lia). lia. }
  pose proof (Z.mod_pos_bound (y / 100) 10 ltac:(lia)) as H2.
  pose proof (Z.mod_pos_bound (y / 10) 10 ltac:(lia)) as H3.
  pose proof (Z.mod_pos_bound y 10 ltac:(lia)) as H4.
  rewrite !unicode_digit_ascii by lia.
  do 2 f_equal.
  pose proof (Z.div_mod y 10 ltac:(lia)).
  pose proof (Z.div_mod (y / 10) 10 ltac:(lia)).
  pose proof (Z.div_mod (y / 100) 10 ltac:(lia)).
  rewrite (Z.div_div y 10 10) in * by lia.
  rewrite (Z.div_div y 100 10) in * by lia.
  change (10 * 10) with 100 in *. change (100 * 10) with 1000 in *.
  lia.
Qed.

Lemma match_month_day_two_digits (m d : Z) :
  1 <= m <= 12 -> 1 <= d <= 31 ->
  match_month_day (two_digits m ++ "-" ++ two_digits d) = Some (m, d, "").
Proof.
  intros Hm Hd.
  pose (reads (a b : Z) :=
          match match_month_day (two_digits a ++ "-" ++ two_digits b) with
          | Some (a', b', rest) =>
              (a' =? a) && (b' =? b) && String.eqb rest ""
          | None => false
          end).
  assert (E : reads m d = true).
  { apply (checked_on_range (fun b => reads m b) 1 31); [| simpl; lia].
    apply (checked_on_range
             (fun a => forallb (fun b => reads a b) (map Z.of_nat (seq 1 31)))
             1 12); [vm_compute; reflexivity | simpl; lia]. }
  unfold reads in E.
  destruct (match_month_day (two_digits m ++ "-" ++ two_digits d))
    as [[[m' d'] rest] |]; [| discriminate].
  apply andb_true_iff in E as [E E3]. apply andb_true_iff in E as [E1 E2].
  apply Z.eqb_eq in E1, E2. apply String.eqb_eq in E3. now subst.
Qed.

Lemma days_in_month_bound (y m : Z) : days_in_month y m <= 31.
Proof.
  unfold days_in_month.
  destruct ((m =? 2) && is_leap y); [lia |].
  destruct (Z.to_nat m) as [| [| [| [| [| [| [| [| [| [| [| [| [| n]]]]]]]]]]]]];
    simpl; try lia.
  destruct n; simpl; lia.
Qed.

Lemma check_date_fields_bounds (y m d : Z) :
  check_date_fields y m d = true ->
  1 <= y <= 9999 /\ 1 <= m <= 12 /\ 1 <= d <= 31.
Proof.
  unfold check_date_fields. intros H.
  repeat rewrite andb_true_iff in H. repeat rewrite Z.leb_le in H.
  pose proof (days_in_month_bound y m). lia.
Qed.

Lemma strptime_isoformat (y m d : Z) :
  check_date_fields y m d = true ->
  strptime (JStr (isoformat y m d)) = Ok (mk_datetime y m d 0 0 0 0).
Proof.
  intros H. destruct (check_date_fields_bounds _ _ _ H) as (Hy & Hm & Hd).
  unfold strptime, match_ymd, isoformat.
  rewrite match_year_four_digits by lia.
  cbn [String.append]. rewrite Ascii.eqb_refl.
  change (two_digits m ++ String "-" (two_digits d))%string
    with (two_digits m ++ "-" ++ two_digits d)%string.
  rewrite (match_month_day_two_digits m d Hm Hd).
  cbn [String.eqb negb]. now rewrite H.
Qed.

(** A date of the calendar written as [YYYY-MM-DD], with the zeros, is
    always accepted and read as that date, so a record that carries one
    earlier than the day of the clock reading, and a [url] that is not
    empty, is always selected, with the number of days between the two. *)
Theorem well_formed_dates_are_selected (cfg : settings) (now : datetime)
  (y m d : Z) (r : list (string * json)) :
  check_date_fields y m d = true ->
  check_time_fields now = true ->
  field "reviewAgain" r = JStr (isoformat y m d) ->
  truthy (field "url" r) = true ->
  ymd2ord y m d < toordinal now ->
  strptime (JStr (isoformat y m d)) = Ok (mk_datetime y m d 0 0 0 0)
  /\ get_out_of_date_docs cfg (fun _ => now) (JArr [JObj r])
     = ([], Ok [mk_entry (field "title" r) (field "url" r)
                  (toordinal now - ymd2ord y m d)]).
Proof.
  intros Hdate Htime Hr Hu Hlt.
  pose proof (strptime_isoformat y m d Hdate) as Hp.
  split; [exact Hp |].
  rewrite (run_eq (get_out_of_date_docs cfg (fun _ => now) (JArr [JObj r]))).
  f_equal.
  - change (JArr [JObj r]) with (JArr (map JObj [r])).
    rewrite selector_trace_on_records. simpl. rewrite app_nil_r.
    unfold date_warning. rewrite Hr, Hp.
    now destruct (truthy (JStr (isoformat y m d)) && truthy (field "url" r)).
  - change (JArr [JObj r]) with (JArr (map JObj [r])).
    rewrite selector_on_records. cbv zeta. simpl qualifying.
    unfold qualifying_entry, calendar_date. rewrite Hu, Hr, Hp.
    assert (E : whole_days_between now (mk_datetime y m d 0 0 0 0)
                = toordinal now - ymd2ord y m d).
    { unfold whole_days_between, instant, microseconds_per_day, toordinal.
      cbn [year month day hour minute second microsecond].
      unfold check_time_fields in Htime.
      repeat rewrite andb_true_iff in Htime.
      repeat rewrite Z.leb_le in Htime.
      symmetry.
      apply Z.div_unique with
        (r := (hour now * 3600 + minute now * 60 + second now) * 1000000
              + microsecond now); unfold toordinal; lia. }
    rewrite E.
    destruct (toordinal now - ymd2ord y m d >? 0) eqn:Hpos; [| lia].
    simpl. destruct (max_docs cfg >? 0) eqn:Hmax.
    + rewrite slice_to_positive by lia.
      destruct (Z.to_nat (max_docs cfg)) as [| n] eqn:En; [lia |].
      cbn [firstn]. now rewrite firstn_nil.
    + reflexivity.
Qed.

Lemma well_formed_dates_are_selected_witness :
  get_out_of_date_docs (settings_with 1) (fun _ => sample_now)
    (JArr [JObj (record "F" "f.html" (isoformat 2024 2 29))])
  = ([], Ok [mk_entry (JStr "F") (JStr "f.html") 15]).
Proof.
  apply (well_formed_dates_are_selected (settings_with 1) sample_now
           2024 2 29 (record "F" "f.html" (isoformat 2024 2 29)));
    try reflexivity.
Defined.

Lemma char_count_cons (a : ascii) (s : string) :
  char_count (String a s)
  = ((if continuation a then 0 else 1) + char_count s)%nat.
Proof. unfold char_count. simpl. now destruct (continuation a). Qed.

Lemma in_range_starts_a_character (lo hi : Z) (a : ascii) :
  in_range lo hi a = true -> continuation a = false.
Proof.
  unfold in_range, is_digit, continuation, byte. intros H.
  repeat rewrite andb_true_iff in H. destruct H as [[[_ H] _] _].
  apply Nat.leb_le in H.
  destruct (128 <=? Z.of_nat (nat_of_ascii a)) eqn:E; [| reflexivity].
  apply Z.leb_le in E. lia.
Qed.

Lemma literal_starts_a_character (a c : ascii) :
  continuation c = false -> Ascii.eqb a c = true -> continuation a = false.
Proof. intros Hc H. apply Ascii.eqb_eq in H. now subst. Qed.

Lemma decode_char_consumes (s rest : string) (cp : Z) :
  decode_char s = Some (cp, rest) -> char_count s = S (char_count rest).
Proof.
  unfold decode_char. destruct s as [| a r1]; [discriminate |]. cbv zeta.
  rewrite char_count_cons.
  assert (Hlead : 128 <= byte a < 194 \/ continuation a = false).
  { unfold continuation.
    destruct (128 <=? byte a) eqn:E1; [| now right].
    destruct (byte a <? 192) eqn:E2; [| now right].
    apply Z.leb_le in E1. apply Z.ltb_lt in E2. left. lia. }
  destruct (byte a <? 128) eqn:E0.
  - apply Z.ltb_lt in E0. destruct Hlead as [Hl | ->]; [lia |].
    intros H; injection H as _ <-. reflexivity.
  - destruct (byte a <? 194) eqn:E1; [discriminate |].
    apply Z.ltb_ge in E1. destruct Hlead as [Hl | ->]; [lia |].
    destruct (byte a <? 224).
    + destruct r1 as [| b r2]; [discriminate |].
      destruct (continuation b) eqn:Cb; [| discriminate].
      intros H; injection H as _ <-.
      rewrite char_count_cons, Cb. reflexivity.
    + destruct (byte a <? 240).
      * destruct r1 as [| b [| c r3]]; try discriminate.
        destruct (continuation b) eqn:Cb; [| discriminate].
        destruct (continuation c) eqn:Cc; [| discriminate].
        cbn [andb].
        match goal with
        | |- context [if ?t then _ else _] => destruct t
        end; [| discriminate].
        intros H; injection H as _ <-.
        rewrite !char_count_cons, Cb, Cc. reflexivity.
      * destruct (byte a <? 245); [| discriminate].
        destruct r1 as [| b [| c [| d r4]]]; try discriminate.
        destruct (continuation b) eqn:Cb; [| discriminate].
        destruct (continuation c) eqn:Cc; [| discriminate].
        destruct (continuation d) eqn:Cd; [| discriminate].
        cbn [andb].
        match goal with
        | |- context [if ?t then _ else _] => destruct t
        end; [| discriminate].
        intros H; injection H as _ <-.
        rewrite !char_count_cons, Cb, Cc, Cd. reflexivity.
Qed.

Lemma unicode_digit_consumes (s rest : string) (v : Z) :
  unicode_digit s = Some (v, rest) -> char_count s = S (char_count rest).
Proof.
  unfold unicode_digit.
  destruct (decode_char s) as [[cp rest'] |] eqn:E; [| discriminate].
  destruct (decimal_value cp); [| discriminate].
  intros H; injection H as _ <-. now apply decode_char_consumes in E.
Qed.

Lemma match_year_consumes (s rest : string) (y : Z) :
  match_year s = Some (y, rest) -> char_count s = (4 + char_count rest)%nat.
Proof.
  unfold match_year.
  destruct (unicode_digit s) as [[a s1] |] eqn:E1; [| discriminate].
  destruct (unicode_digit s1) as [[b s2] |] eqn:E2; [| discriminate].
  destruct (unicode_digit s2) as [[c s3] |] eqn:E3; [| discriminate].
  destruct (unicode_digit s3) as [[d s4] |] eqn:E4; [| discriminate].
  intros H; injection H as _ <-.
  apply unicode_digit_consumes in E1, E2, E3, E4. lia.
Qed.

(** The character tests of a branch, turned into what they say about the
    count of characters. *)
Ltac character_facts :=
  repeat match goal with
         | H : _ && _ = true |- _ =>
             apply andb_true_iff in H; destruct H
         | H : Ascii.eqb ?a ?c = true |- _ =>
             apply (literal_starts_a_character a c eq_refl) in H
         | H : in_range _ _ _ = true |- _ =>
             apply in_range_starts_a_character in H
         | H : unicode_digit _ = Some _ |- _ =>
             apply unicode_digit_consumes in H
         end;
  repeat rewrite char_count_cons in *;
  repeat match goal with
         | H : continuation ?a = false |- _ => rewrite H in *; clear H
         end.

Ltac split_conditions :=
  repeat match goal with
         | |- context [if ?c then _ else _] =>
             match type of c with
             | bool => let C := fresh "C" in destruct c eqn:C
             end
         | |- context [match unicode_digit ?x with _ => _ end] =>
             let U := fresh "U" in
             destruct (unicode_digit x) as [[? ?] |] eqn:U
         end.

Lemma match_day_consumes (s rest : string) (d : Z) :
  match_day s = Some (d, rest) ->
  (char_count rest < char_count s <= char_count rest + 2)%nat.
Proof.
  unfold match_day, orelse.
  destruct s as [| a [| b s]]; split_conditions;
    intros H; try discriminate; inversion H; subst;
    character_facts; cbn [char_count] in *; lia.
Qed.

Lemma match_month_day_consumes (s rest : string) (m d : Z) :
  match_month_day s = Some (m, d, rest) ->
  (char_count rest + 3 <= char_count s <= char_count rest + 5)%nat.
Proof.
  unfold match_month_day, match_dash_day, orelse.
  destruct s as [| a [| b [| c s]]]; split_conditions;
    try discriminate;
    repeat match goal with
           | |- context [match_day ?x] =>
               let E := fresh "E" in
               destruct (match_day x) as [[? ?] |] eqn:E;
               [apply match_day_consumes in E |]
           end;
    intros H; try discriminate; inversion H; subst;
    character_facts; cbn [char_count] in *; lia.
Qed.

Lemma match_ymd_consumes (s rest : string) (y m d : Z) :
  match_ymd s = Some (y, m, d, rest) ->
  (char_count rest + 8 <= char_count s <= char_count rest + 10)%nat.
Proof.
  unfold match_ymd.
  destruct (match_year s) as [[y' s1] |] eqn:Ey; [| discriminate].
  apply match_year_consumes in Ey.
  destruct s1 as [| c s2]; [discriminate |].
  destruct (Ascii.eqb c "-") eqn:Ec; [| discriminate].
  destruct (match_month_day s2) as [[[m' d'] rest'] |] eqn:E; [| discriminate].
  apply match_month_day_consumes in E.
  intros H; inversion H; subst. character_facts. lia.
Qed.

Lemma strptime_accepts_short_strings (v : json) (d : datetime) :
  strptime v = Ok d ->
  exists s : string, v = JStr s /\ (8 <= char_count s <= 10)%nat.
Proof.
  intros H. destruct v as [| | | | s | |]; try discriminate.
  unfold strptime in H.
  destruct (match_ymd s) as [[[[y m] dd] rest] |] eqn:E; [| discriminate].
  destruct (String.eqb rest "") eqn:Erest; [| discriminate].
  apply String.eqb_eq in Erest. subst rest.
  apply match_ymd_consumes in E. exists s. split; [reflexivity |].
  change (char_count "") with 0%nat in E. lia.
Qed.

(** Whatever date the selector reads out of a [reviewAgain] came from a
    string of eight to ten characters and is a day of the calendar, in the
    years 1 to 9999, at midnight; a record whose [reviewAgain] is a
    string of another length is skipped, and the loop goes on with the
    entries it had. *)
Theorem strptime_returns_calendar_dates (now : datetime)
  (r : list (string * json)) (acc : list entry) :
  (forall d : datetime,
      strptime (field "reviewAgain" r) = Ok d ->
      (exists s : string,
          field "reviewAgain" r = JStr s /\ (8 <= char_count s <= 10)%nat)
      /\ check_date_fields (year d) (month d) (day d) = true
      /\ 1 <= year d <= 9999
      /\ hour d = 0 /\ minute d = 0 /\ second d = 0 /\ microsecond d = 0)
  /\ (forall s : string,
         field "reviewAgain" r = JStr s ->
         (char_count s < 8)%nat \/ (10 < char_count s)%nat ->
         outcome (examine now (JObj r) acc) = Ok acc).
Proof.
  split.
  - intros d H. pose proof (strptime_midnight _ _ H) as Hmid.
    split; [now apply strptime_accepts_short_strings with (d := d) |].
    destruct (field "reviewAgain" r) as [| | | | s | |]; try discriminate.
    unfold strptime in H.
    destruct (match_ymd s) as [[[[y m] dd] rest] |]; [| discriminate].
    destruct (negb (String.eqb rest "")); [discriminate |].
    destruct (check_date_fields y m dd) eqn:Hc; [| discriminate].
    injection H as <-. cbn [year month day].
    pose proof (check_date_fields_bounds _ _ _ Hc).
    repeat split; try tauto; lia.
  - intros s Hs Hlen. rewrite outcome_examine.
    unfold qualifying_entry, calendar_date.
    destruct (strptime (field "reviewAgain" r)) as [d |] eqn:Hp.
    + destruct (strptime_accepts_short_strings _ _ Hp) as (s' & Hs' & Hb).
      rewrite Hs in Hs'. injection Hs' as <-. lia.
    + destruct (truthy (field "url" r)); simpl; now rewrite app_nil_r.
Qed.

Lemma strptime_returns_calendar_dates_witness :
  outcome (examine sample_now (JObj (record "E" "e.html" "2024-03-010")) [])
  = Ok []
  /\ check_date_fields 2024 3 14 = true.
Proof.
  split.
  - apply (proj2 (strptime_returns_calendar_dates sample_now
                    (record "E" "e.html" "2024-03-010") []) "2024-03-010").
    + reflexivity.
    + right. vm_compute. lia.
  - apply (proj1 (strptime_returns_calendar_dates sample_now
                    (record "H" "h.html" "2024-3-14") [])
             (mk_datetime 2024 3 14 0 0 0 0)).
    reflexivity.
Defined.

(* ------------------------------------------------------------------ *)
(** ** More on the message builder *)

Lemma nth_list_set_flags (j : nat) (flags : list bool) :
  nth j flags false = true -> list_set j true flags = flags.
Proof.
  revert j. induction flags as [| b rest IH]; intros [| j]; simpl; intros H;
    try reflexivity.
  - now subst.
  - f_equal. now apply IH.
Qed.

Lemma map_list_set {A B : Type} (f : A -> B) (j : nat) (x : A) (l : list A) :
  map f (list_set j x l) = list_set j (f x) (map f l).
Proof.
  revert j. induction l as [| y rest IH]; intros [| j]; simpl;
    try reflexivity.
  now rewrite IH.
Qed.

Lemma text_flags_truthy (template : json) (flags : list bool) :
  text_flags template = Some flags -> truthy template = true.
Proof.
  destruct template as [| | | | | | tf]; try discriminate.
  destruct tf; [discriminate | reflexivity].
Qed.

(** A store goes through exactly when its index names a block with an
    object at [text], and then every block still has its flag. *)
Lemma assign_text_on_flags (i : Z) (text : string) (template : json)
  (flags : list bool) :
  text_flags template = Some flags ->
  if store_fits i flags
  then exists message : json,
         assign_text i text template = Ok message
         /\ text_flags message = Some flags
  else exists e : exn, assign_text i text template = Raise e.
Proof.
  unfold text_flags, store_fits.
  destruct template as [| | | | | | tf]; try discriminate.
  destruct (dict_get "blocks" tf) as [[| | | | | blocks |] |] eqn:Hb;
    try discriminate.
  intros H; injection H as <-. rewrite length_map.
  unfold assign_text. cbn [getitem_key]. rewrite Hb. cbn [getitem_index].
  destruct (norm_index i (List.length blocks)) as [j |] eqn:Hn;
    [| now eexists].
  pose proof (norm_index_bound _ _ _ Hn) as Hlt.
  rewrite (nth_indep _ false (has_text_object JNull))
    by (rewrite length_map; exact Hlt).
  rewrite map_nth.
  destruct (nth j blocks JNull) as [| | | | | | bf] eqn:Hj;
    try (cbn; now eexists).
  cbn [getitem_key has_text_object].
  destruct (dict_get "text" bf) as [[| | | | | | inner] |] eqn:Ht;
    try (now eexists).
  eexists. split; [reflexivity |].
  cbn [text_flags]. rewrite dict_get_set_same, map_list_set.
  rewrite has_text_object_store. f_equal.
  apply nth_list_set_flags.
  rewrite (nth_indep _ false (has_text_object JNull))
    by (rewrite length_map; exact Hlt).
  rewrite map_nth, Hj. unfold has_text_object. now rewrite Ht.
Qed.

Lemma assign_text_without_flags (i : Z) (text : string) (template : json) :
  text_flags template = None ->
  exists e : exn, assign_text i text template = Raise e.
Proof.
  unfold text_flags, assign_text.
  destruct template as [| | | | | | tf]; try (now eexists).
  cbn [getitem_key].
  destruct (dict_get "blocks" tf) as [[| | | | s | blocks |] |];
    try discriminate; intros _; try (now eexists).
  cbn [getitem_index].
  destruct (norm_index i (List.length (utf8_chars s))); now eexists.
Qed.

(** What a successful store leaves behind: as many blocks as before, the
    new text at the position stored to, the old texts elsewhere. *)
Lemma assign_text_reads_back (i : Z) (text : string) (template message : json) :
  assign_text i text template = Ok message ->
  exists n j : nat,
    block_count template = Some n
    /\ block_count message = Some n
    /\ norm_index i n = Some j
    /\ block_text j message = Some (JStr text)
    /\ forall j' : nat,
         j' <> j -> block_text j' message = block_text j' template.
Proof.
  intros H.
  destruct (assign_text_inversion _ _ _ _ H)
    as (tf & blocks & j & bf & inner & -> & Hb & Hn & Hj & Ht & ->).
  exists (List.length blocks), j.
  pose proof (norm_index_bound _ _ _ Hn) as Hlt.
  unfold block_count, block_text.
  rewrite Hb, dict_get_set_same, list_set_length.
  repeat split; try assumption.
  - rewrite nth_error_list_set_same by exact Hlt.
    now rewrite !dict_get_set_same.
  - intros j' Hne. now rewrite nth_error_list_set_other by exact Hne.
Qed.

Section BuilderOutcomes.

Variable py_repr : json -> string.
Variable urlparse : json -> result (string * string).

(** The list text is the lines of the entries, one after the other in the
    order of the entries, each under the base URL made of the scheme and
    the host of the inventory URL. With no entry it is empty and
    [urlparse] is not called; with an entry, an exception of [urlparse]
    leaves the loop. *)
Theorem list_text_joins_the_lines (pages_url : json)
  (overdue_docs : list entry) :
  (forall scheme netloc : string,
      urlparse pages_url = Ok (scheme, netloc) ->
      list_text py_repr urlparse pages_url overdue_docs ""
      = Ok (fold_right String.append ""
              (map (list_line py_repr (scheme ++ "://" ++ netloc ++ "/"))
                 overdue_docs)))
  /\ (forall e : exn,
         urlparse pages_url = Raise e ->
         list_text py_repr urlparse pages_url overdue_docs ""
         = match overdue_docs with [] => Ok "" | _ :: _ => Raise e end).
Proof.
  split.
  - intros scheme netloc Hp.
    now rewrite (list_text_accumulates py_repr urlparse pages_url scheme
                   netloc).
  - intros e Hp. destruct overdue_docs; simpl; [reflexivity | now rewrite Hp].
Qed.

Lemma builder_on_template (w : world) (cfg : settings)
  (i : nat) (overdue_docs : list entry) (pages_url template : json)
  (p : string * string) :
  template_file w i = FileJson template ->
  urlparse pages_url = Ok p ->
  if template_fits template
  then exists message : json,
         build_slack_message py_repr urlparse w cfg i overdue_docs pages_url
         = ([OpenFile slack_template_filename;
             Log DEBUG (DumpOfMessage message)], Ok (Some message))
  else exists msg : message,
         build_slack_message py_repr urlparse w cfg i overdue_docs pages_url
         = ([OpenFile slack_template_filename; Log WARNING msg], Ok None).
Proof.
  intros Hf Hp.
  destruct (list_text_returns py_repr urlparse pages_url p overdue_docs Hp "")
    as [text Htext].
  unfold template_fits.
  destruct (text_flags template) as [flags |] eqn:Hfl.
  - pose proof (text_flags_truthy _ _ Hfl) as Htruthy.
    pose proof (assign_text_on_flags 0 (header_text overdue_docs) _ _ Hfl)
      as H0.
    destruct (store_fits 0 flags); cbn [andb].
    + destruct H0 as (t1 & E1 & F1).
      pose proof (assign_text_on_flags 1
                    (list_heading_text cfg overdue_docs) _ _ F1) as H1.
      destruct (store_fits 1 flags); cbn [andb].
      * destruct H1 as (t2 & E2 & F2).
        pose proof (assign_text_on_flags (-2) text _ _ F2) as H2.
        destruct (store_fits (-2) flags).
        -- destruct H2 as (t3 & E3 & _). exists t3.
           unfold build_slack_message. rewrite Hf.
           unfold get_json, bind at 1 2, emit, ret.
           rewrite Htruthy, Htext, E1.
           unfold lift, bind, catch, ret, emit. now rewrite E2, E3.
        -- destruct H2 as (e & E3). eexists.
           unfold build_slack_message. rewrite Hf.
           unfold get_json, bind at 1 2, emit, ret.
           rewrite Htruthy, Htext, E1.
           unfold lift, bind, catch, ret, emit. rewrite E2, E3. reflexivity.
      * destruct H1 as (e & E2). eexists.
        unfold build_slack_message. rewrite Hf.
        unfold get_json, bind at 1 2, emit, ret.
        rewrite Htruthy, Htext, E1.
        unfold lift, bind, catch, ret, emit. rewrite E2. reflexivity.
    + destruct H0 as (e & E1). eexists.
      unfold build_slack_message. rewrite Hf.
      unfold get_json, bind at 1 2, emit, ret.
      rewrite Htruthy, Htext, E1. reflexivity.
  - destruct (truthy template) eqn:Htruthy.
    + destruct (assign_text_without_flags 0 (header_text overdue_docs) _ Hfl)
        as (e & E1).
      eexists. unfold build_slack_message. rewrite Hf.
      unfold get_json, bind at 1 2, emit, ret.
      rewrite Htruthy, Htext, E1. reflexivity.
    + eexists. unfold build_slack_message. rewrite Hf.
      unfold get_json, bind at 1 2, emit, ret.
      rewrite Htruthy. reflexivity.
Qed.

(** With a template file that holds JSON and an inventory URL that
    [urlparse] accepts, the builder returns a message exactly when the
    template fits: then it opens the file, logs the message at debug level
    and does nothing else. When the template does not fit it opens the
    file, logs one warning and returns nothing; no exception leaves it. *)
Theorem builder_returns_iff_template_fits (w : world) (cfg : settings)
  (i : nat) (overdue_docs : list entry) (pages_url template : json)
  (p : string * string) :
  template_file w i = FileJson template ->
  urlparse pages_url = Ok p ->
  if template_fits template
  then exists message : json,
         build_slack_message py_repr urlparse w cfg i overdue_docs pages_url
         = ([OpenFile slack_template_filename;
             Log DEBUG (DumpOfMessage message)], Ok (Some message))
  else exists msg : message,
         build_slack_message py_repr urlparse w cfg i overdue_docs pages_url
         = ([OpenFile slack_template_filename; Log WARNING msg], Ok None).
Proof. apply builder_on_template. Qed.

(** The builder never fails in silence: when the template file raises
    nothing but "not found" or "not JSON" and [urlparse] accepts the
    inventory URL, it returns, and it returns nothing exactly when it has
    logged a warning. A template file that is missing or does not hold
    JSON costs two warnings. *)
Theorem builder_warns_when_it_returns_nothing (w : world) (cfg : settings)
  (i : nat) (overdue_docs : list entry) (pages_url : json)
  (p : string * string) :
  template_file w i <> FileOtherError ->
  urlparse pages_url = Ok p ->
  (exists built : option json,
      outcome (build_slack_message py_repr urlparse w cfg i overdue_docs
                 pages_url) = Ok built
      /\ (built = None <->
          existsb is_warning
            (trace (build_slack_message py_repr urlparse w cfg i overdue_docs
                      pages_url)) = true))
  /\ (template_file w i = FileNotFoundError
      \/ template_file w i = FileJSONDecodeError ->
      build_slack_message py_repr urlparse w cfg i overdue_docs pages_url
      = ([OpenFile slack_template_filename;
          Log WARNING (CouldNotLoadOrParse slack_template_filename);
          Log WARNING CouldNotLoadTemplate], Ok None)).
Proof.
  intros Hf Hp. split.
  - destruct (template_file w i) as [template | | |] eqn:Ht;
      [| | | contradiction].
    + pose proof (builder_on_template w cfg i overdue_docs pages_url template
                    p Ht Hp) as H.
      destruct (template_fits template).
      * destruct H as [message ->]. exists (Some message).
        split; [reflexivity |]. split; discriminate.
      * destruct H as [msg ->]. exists None.
        split; [reflexivity |]. split; reflexivity.
    + unfold build_slack_message. rewrite Ht. exists None.
      split; [reflexivity |]. split; reflexivity.
    + unfold build_slack_message. rewrite Ht. exists None.
      split; [reflexivity |]. split; reflexivity.
  - unfold build_slack_message. intros [-> | ->]; reflexivity.
Qed.

(** In a message the builder returns, the last block but one carries the
    list text; the second block carries the list heading unless it is the
    last but one (three blocks); the first block carries the greeting
    unless it is the last but one (two blocks). *)
Theorem builder_places_the_texts (w : world) (cfg : settings) (i : nat)
  (overdue_docs : list entry) (pages_url message : json) :
  outcome (build_slack_message py_repr urlparse w cfg i overdue_docs pages_url)
  = Ok (Some message) ->
  exists (n : nat) (text : string),
    block_count message = Some n
    /\ (2 <= n)%nat
    /\ list_text py_repr urlparse pages_url overdue_docs "" = Ok text
    /\ block_text (n - 2) message = Some (JStr text)
    /\ (n <> 3%nat ->
        block_text 1 message
        = Some (JStr (list_heading_text cfg overdue_docs)))
    /\ (n <> 2%nat ->
        block_text 0 message = Some (JStr (header_text overdue_docs))).
Proof.
  intros H.
  destruct (build_slack_message_inversion _ _ _ _ _ _ _ _ H)
    as (template & t1 & t2 & text & _ & Htext & H1 & H2 & H3).
  destruct (assign_text_reads_back _ _ _ _ H1)
    as (n & j0 & _ & C1 & N0 & T0 & _).
  destruct (assign_text_reads_back _ _ _ _ H2)
    as (n' & j1 & C1' & C2 & N1 & T1 & K1).
  rewrite C1 in C1'. injection C1' as <-.
  destruct (assign_text_reads_back _ _ _ _ H3)
    as (n' & j2 & C2' & C3 & N2 & T2 & K2).
  rewrite C2 in C2'. injection C2' as <-.
  pose proof (norm_index_bound _ _ _ N1) as B1.
  apply norm_index_position in N0, N1, N2.
  change (0 <? 0) with false in N0. change (1 <? 0) with false in N1.
  change (-2 <? 0) with true in N2.
  assert (j0 = 0%nat) by lia. assert (j1 = 1%nat) by lia.
  assert (j2 = (n - 2)%nat) by lia. subst j0 j1 j2.
  exists n, text. repeat split; try assumption; try lia.
  - intros Hn. rewrite K2 by lia. exact T1.
  - intros Hn. rewrite K2 by lia. rewrite K1 by lia. exact T0.
Qed.

End BuilderOutcomes.

Lemma list_text_joins_the_lines_witness :
  list_text sample_repr sample_urlparse (JStr "http://a.test/inv")
    [mk_entry (JStr "C") (JStr "c.html") 366;
     mk_entry (JStr "H") (JStr "h.html") 1] ""
  = Ok (list_line sample_repr "http://a.test/"
          (mk_entry (JStr "C") (JStr "c.html") 366)
        ++ list_line sample_repr "http://a.test/"
             (mk_entry (JStr "H") (JStr "h.html") 1))%string.
Proof.
  rewrite (proj1 (list_text_joins_the_lines sample_repr sample_urlparse
                    (JStr "http://a.test/inv")
                    [mk_entry (JStr "C") (JStr "c.html") 366;
                     mk_entry (JStr "H") (JStr "h.html") 1])
             "http" "a.test" eq_refl).
  reflexivity.
Defined.

Lemma builder_returns_iff_template_fits_witness :
  (exists message : json,
      build_slack_message sample_repr sample_urlparse
        (sample_world sample_inventory sample_template) (settings_with 3) 0
        [mk_entry (JStr "C") (JStr "c.html") 366] (JStr "http://a.test/inv")
      = ([OpenFile slack_template_filename;
          Log DEBUG (DumpOfMessage message)], Ok (Some message)))
  /\ (exists msg : message,
         build_slack_message sample_repr sample_urlparse
           (sample_world sample_inventory
              (JObj [("blocks", JArr [text_block "header" "title"])]))
           (settings_with 3) 0
           [mk_entry (JStr "C") (JStr "c.html") 366] (JStr "http://a.test/inv")
         = ([OpenFile slack_template_filename; Log WARNING msg], Ok None)).
Proof.
  split.
  - apply (builder_returns_iff_template_fits sample_repr sample_urlparse
             (sample_world sample_inventory sample_template) (settings_with 3)
             0 [mk_entry (JStr "C") (JStr "c.html") 366]
             (JStr "http://a.test/inv") sample_template ("http", "a.test"));
      reflexivity.
  - apply (builder_returns_iff_template_fits sample_repr sample_urlparse
             (sample_world sample_inventory
                (JObj [("blocks", JArr [text_block "header" "title"])]))
             (settings_with 3) 0 [mk_entry (JStr "C") (JStr "c.html") 366]
             (JStr "http://a.test/inv")
             (JObj [("blocks", JArr [text_block "header" "title"])])
             ("http", "a.test"));
      reflexivity.
Defined.

Lemma builder_warns_when_it_returns_nothing_witness :
  build_slack_message sample_repr sample_urlparse failing_world
    (settings_with 3) 4 [mk_entry (JStr "C") (JStr "c.html") 366]
    (JStr "http://a.test/4")
  = ([OpenFile slack_template_filename;
      Log WARNING (CouldNotLoadOrParse slack_template_filename);
      Log WARNING CouldNotLoadTemplate], Ok None).
Proof.
  apply (builder_warns_when_it_returns_nothing sample_repr sample_urlparse
           failing_world (settings_with 3) 4
           [mk_entry (JStr "C") (JStr "c.html") 366]
           (JStr "http://a.test/4") ("http", "a.test")).
  - discriminate.
  - reflexivity.
  - left. reflexivity.
Defined.

Lemma builder_places_the_texts_witness :
  exists (n : nat) (text : string),
    block_count
      (JObj [("blocks",
         JArr [text_block "header"
                 ":rocco-docco-quokka: Hello. :paw_prints: This is Rocco, your friendly docco quokka. I've found 1 page overdue for review.";
               text_block "section"
                 (list_line sample_repr "http://a.test/"
                    (mk_entry (JStr "C") (JStr "c.html") 366));
               text_block "context" "github.com/ministryofjustice"])])
    = Some n
    /\ list_text sample_repr sample_urlparse (JStr "http://a.test/inv")
         [mk_entry (JStr "C") (JStr "c.html") 366] "" = Ok text.
Proof.
  destruct (builder_places_the_texts sample_repr sample_urlparse
              (sample_world sample_inventory
                 (JObj [("blocks",
                         JArr [text_block "header" "title";
                               text_block "section" "heading";
                               text_block "context"
                                 "github.com/ministryofjustice"])]))
              (settings_with 3) 0
              [mk_entry (JStr "C") (JStr "c.html") 366]
              (JStr "http://a.test/inv")
              (JObj [("blocks",
                 JArr [text_block "header"
                         ":rocco-docco-quokka: Hello. :paw_prints: This is Rocco, your friendly docco quokka. I've found 1 page overdue for review.";
                       text_block "section"
                         (list_line sample_repr "http://a.test/"
                            (mk_entry (JStr "C") (JStr "c.html") 366));
                       text_block "context" "github.com/ministryofjustice"])]))
    as (n & text & Hc & _ & Htext & _).
  - vm_compute. reflexivity.
  - exists n, text. split; assumption.
Defined.

(* ------------------------------------------------------------------ *)
(** ** The requests of a run *)

Lemma requests_app (t1 t2 : list event) :
  requests (t1 ++ t2) = requests t1 ++ requests t2.
Proof. apply filter_app. Qed.

Lemma requests_bind {A B : Type} (m : M A) (f : A -> M B) :
  requests (trace (bind m f))
  = requests (trace m)
    ++ match outcome m with
       | Ok a => requests (trace (f a))
       | Raise _ => []
       end.
Proof.
  rewrite trace_bind. destruct (outcome m);
    [apply requests_app | now rewrite app_nil_r].
Qed.

Lemma requests_catch {A : Type} (m : M A) (h : exn -> M A) :
  requests (trace (catch m h))
  = requests (trace m)
    ++ match outcome m with
       | Ok _ => []
       | Raise e => requests (trace (h e))
       end.
Proof.
  destruct m as [t [a | e]]; simpl.
  - now rewrite app_nil_r.
  - destruct (h e) as [t' r]. simpl. apply requests_app.
Qed.

Lemma requests_get_doc_list (w : world) (i : nat) (u : json) :
  requests (trace (get_doc_list w i u)) = [HttpGet u].
Proof.
  unfold get_doc_list.
  destruct (http_get w i u) as [| status_code [data |]];
    [reflexivity | |];
    destruct (status_code =? 200); try reflexivity.
  now destruct (truthy data).
Qed.

Lemma requests_examine (now : datetime) (doc : json) (acc : list entry) :
  requests (trace (examine now doc acc)) = [].
Proof.
  destruct doc as [| | | | | | r]; try reflexivity.
  rewrite trace_examine. unfold date_warning.
  destruct (truthy (field "reviewAgain" r) && truthy (field "url" r));
    [| reflexivity].
  now destruct (strptime (field "reviewAgain" r)).
Qed.

Lemma requests_examine_all (now_at : nat -> datetime) (docs : list json) :
  forall (i : nat) (acc : list entry),
    requests (trace (examine_all now_at i docs acc)) = [].
Proof.
  induction docs as [| doc rest IH]; intros i acc; simpl; [reflexivity |].
  rewrite requests_bind, requests_examine.
  destruct (outcome (examine (now_at i) doc acc)); [apply IH | reflexivity].
Qed.

Lemma requests_get_out_of_date_docs (cfg : settings)
  (now_at : nat -> datetime) (doc_list : json) :
  requests (trace (get_out_of_date_docs cfg now_at doc_list)) = [].
Proof.
  unfold get_out_of_date_docs. rewrite requests_bind, outcome_lift.
  destruct (py_iter doc_list) as [docs |]; [| reflexivity].
  rewrite requests_bind, requests_examine_all.
  now destruct (outcome (examine_all now_at 0 docs [])).
Qed.

Lemma requests_slack_notify (w : world) (cfg : settings) (i : nat)
  (slack_message : json) :
  requests (trace (slack_notify w cfg i slack_message))
  = [HttpPost (slack_webhook_url cfg) slack_message].
Proof.
  unfold slack_notify. now destruct (http_post w i slack_message).
Qed.

Lemma posts_among_requests (t : list event) :
  existsb is_post t = existsb is_post (requests t).
Proof.
  unfold requests.
  induction t as [| ev t IH]; simpl; [reflexivity |].
  destruct ev; simpl; congruence.
Qed.

Lemma gets_among_requests (t : list event) :
  filter is_get t = filter is_get (requests t).
Proof.
  unfold requests.
  induction t as [| ev t IH]; simpl; [reflexivity |].
  destruct ev; simpl; congruence.
Qed.


Section Requests.

Variable py_repr : json -> string.
Variable urlparse : json -> result (string * string).
Variable py_int : string -> option Z.

Lemma requests_build_slack_message (w : world) (cfg : settings) (i : nat)
  (overdue_docs : list entry) (pages_url : json) :
  requests (trace (build_slack_message py_repr urlparse w cfg i overdue_docs
                     pages_url))
  = [OpenFile slack_template_filename].
Proof.
  unfold build_slack_message. rewrite requests_bind.
  assert (Hopen : requests (trace (get_json (template_file w i)
                                     slack_template_filename))
                  = [OpenFile slack_template_filename])
    by now destruct (template_file w i).
  rewrite Hopen.
  destruct (outcome (get_json (template_file w i) slack_template_filename))
    as [template |]; [| reflexivity].
  destruct (truthy template); [| reflexivity].
  rewrite requests_bind, outcome_lift.
  destruct (list_text py_repr urlparse pages_url overdue_docs "") as [text |];
    [| reflexivity].
  rewrite requests_bind, requests_catch.
  set (stores := t1 <- lift (assign_text 0 (header_text overdue_docs) template) ;;
                 t2 <- lift (assign_text 1
                               (list_heading_text cfg overdue_docs) t1) ;;
                 t3 <- lift (assign_text (-2) text t2) ;;
                 ret (Some t3)).
  assert (Hstores : requests (trace stores) = []).
  { unfold stores. rewrite requests_bind, outcome_lift.
    destruct (assign_text 0 (header_text overdue_docs) template) as [t1 |];
      [| reflexivity].
    rewrite requests_bind, outcome_lift.
    destruct (assign_text 1 (list_heading_text cfg overdue_docs) t1)
      as [t2 |]; [| reflexivity].
    rewrite requests_bind, outcome_lift.
    now destruct (assign_text (-2) text t2). }
  rewrite Hstores, outcome_catch.
  destruct (outcome stores) as [[message |] | e]; reflexivity.
Qed.

(** The requests made for one inventory URL, whatever happens. *)
Lemma process_url_requests (w : world) (cfg : settings) (i : nat)
  (pages_url : json) :
  requests (trace (process_url py_repr urlparse w cfg i pages_url))
  = [HttpGet pages_url]
  \/ (slack_webhook_url cfg <> ""
      /\ (requests (trace (process_url py_repr urlparse w cfg i pages_url))
          = [HttpGet pages_url; OpenFile slack_template_filename]
          \/ exists (overdue_docs : list entry) (slack_message : json),
               outcome (build_slack_message py_repr urlparse w cfg i
                          overdue_docs pages_url) = Ok (Some slack_message)
               /\ requests
                    (trace (process_url py_repr urlparse w cfg i pages_url))
                  = [HttpGet pages_url; OpenFile slack_template_filename;
                     HttpPost (slack_webhook_url cfg) slack_message])).
Proof.
  unfold process_url. rewrite requests_bind, requests_get_doc_list.
  destruct (outcome (get_doc_list w i pages_url)) as [[doc_list |] | e];
    [| now left | now left].
  destruct (truthy doc_list); [| now left].
  rewrite requests_bind, requests_get_out_of_date_docs.
  destruct (outcome (get_out_of_date_docs cfg (clock w i) doc_list))
    as [overdue_docs | e]; [| now left].
  destruct (nonempty overdue_docs); [| now left].
  rewrite requests_bind. cbn [emit trace outcome fst snd requests filter
                               is_log negb app].
  destruct (String.eqb (slack_webhook_url cfg) "") eqn:Hw; [now left |].
  apply String.eqb_neq in Hw. right. split; [exact Hw |]. cbn [negb].
  rewrite requests_bind, requests_build_slack_message.
  destruct (outcome (build_slack_message py_repr urlparse w cfg i overdue_docs
                       pages_url)) as [[slack_message |] | e] eqn:Hb;
    [| now left | now left].
  destruct (truthy slack_message); [| now left].
  right. exists overdue_docs, slack_message. split; [exact Hb |].
  rewrite requests_bind, requests_slack_notify.
  destruct (outcome (slack_notify w cfg i slack_message)) as [[|] | e];
    reflexivity.
Qed.

(** For one inventory URL the program makes one GET, to that URL; with a
    webhook configured it may then open the template file, once, and may
    then make one POST, to the webhook, with the message the builder
    returned as its body. It makes no other request, and with no webhook
    it makes the GET only. *)
Theorem one_get_one_template_one_post (w : world) (cfg : settings) (i : nat)
  (pages_url : json) :
  (requests (trace (process_url py_repr urlparse w cfg i pages_url))
   = [HttpGet pages_url]
   \/ requests (trace (process_url py_repr urlparse w cfg i pages_url))
      = [HttpGet pages_url; OpenFile slack_template_filename]
   \/ exists (overdue_docs : list entry) (slack_message : json),
        outcome (build_slack_message py_repr urlparse w cfg i overdue_docs
                   pages_url) = Ok (Some slack_message)
        /\ requests (trace (process_url py_repr urlparse w cfg i pages_url))
           = [HttpGet pages_url; OpenFile slack_template_filename;
              HttpPost (slack_webhook_url cfg) slack_message])
  /\ (slack_webhook_url cfg = "" ->
      requests (trace (process_url py_repr urlparse w cfg i pages_url))
      = [HttpGet pages_url]).
Proof.
  destruct (process_url_requests w cfg i pages_url) as [H | [Hw [H | H]]].
  - split; [now left | now intros _].
  - split; [right; now left | intros E; contradiction].
  - split; [right; now right | intros E; contradiction].
Qed.

End Requests.

Lemma one_get_one_template_one_post_witness :
  requests (trace (process_url sample_repr sample_urlparse
                     (sample_world sample_inventory sample_template)
                     settings_without_webhook 0 (JStr "http://a.test/inv")))
  = [HttpGet (JStr "http://a.test/inv")].
Proof.
  apply (one_get_one_template_one_post sample_repr sample_urlparse
           (sample_world sample_inventory sample_template)
           settings_without_webhook 0 (JStr "http://a.test/inv")).
  reflexivity.
Defined.

(** A post in the trace of [m ;; f] when [m] is quiet, with the trace split
    at the end of [m]. *)
Lemma post_after_quiet {A B : Type} (m : M A) (f : A -> M B) :
  quiet m ->
  existsb is_post (trace (bind m f)) = true ->
  exists a : A,
    outcome m = Ok a
    /\ trace (bind m f) = trace m ++ trace (f a)
    /\ existsb is_post (trace (f a)) = true.
Proof.
  intros Hq H. pose proof H as H'.
  apply post_in_bind in H' as (a & Ha & Hp); [| exact Hq].
  exists a. split; [exact Ha | split; [| exact Hp]].
  now rewrite trace_bind, Ha.
Qed.

Section RunOfThePages.

Variable py_repr : json -> string.
Variable urlparse : json -> result (string * string).
Variable py_int : string -> option Z.

(** When a POST is made for an inventory URL, it is the last request, it
    goes to the configured webhook, and what follows it in the log tells
    how it went: an error if the call raised, "notification sent" on
    status 200, and nothing at all on any other status. *)
Theorem the_log_after_a_post (w : world) (cfg : settings) (i : nat)
  (pages_url : json) :
  existsb is_post (trace (process_url py_repr urlparse w cfg i pages_url))
  = true ->
  exists (before : list event) (slack_message : json),
    trace (process_url py_repr urlparse w cfg i pages_url)
    = before ++ HttpPost (slack_webhook_url cfg) slack_message
               :: after_post (http_post w i slack_message)
    /\ existsb is_post before = false.
Proof.
  intros H. unfold process_url in *.
  apply post_after_quiet in H as ([doc_list |] & _ & -> & H);
    [| discriminate | apply quiet_get_doc_list].
  destruct (truthy doc_list); [| discriminate].
  apply post_after_quiet in H as (overdue_docs & _ & -> & H);
    [| apply quiet_get_out_of_date_docs].
  destruct (nonempty overdue_docs); [| discriminate].
  apply post_after_quiet in H as (_ & _ & -> & H); [| now apply quiet_emit].
  destruct (negb (String.eqb (slack_webhook_url cfg) "")); [| discriminate].
  apply post_after_quiet in H as ([slack_message |] & _ & -> & H);
    [| discriminate | apply quiet_build_slack_message].
  destruct (truthy slack_message); [| discriminate].
  exists (trace (get_doc_list w i pages_url)
          ++ trace (get_out_of_date_docs cfg (clock w i) doc_list)
          ++ trace (emit (Log INFO (OverdueDocuments overdue_docs)))
          ++ trace (build_slack_message py_repr urlparse w cfg i overdue_docs
                      pages_url)),
         slack_message.
  split.
  - rewrite <- !app_assoc. do 4 f_equal.
    unfold slack_notify, after_post.
    destruct (http_post w i slack_message) as [| status_code];
      [reflexivity |].
    cbn. now destruct (status_code =? 200).
  - rewrite !existsb_app.
    rewrite (quiet_get_doc_list w i pages_url).
    rewrite (quiet_get_out_of_date_docs cfg (clock w i) doc_list).
    rewrite (quiet_build_slack_message py_repr urlparse w cfg i overdue_docs
               pages_url).
    reflexivity.
Qed.

Lemma gets_of_process_url (w : world) (cfg : settings) (i : nat)
  (pages_url : json) :
  filter is_get (trace (process_url py_repr urlparse w cfg i pages_url))
  = [HttpGet pages_url].
Proof.
  rewrite gets_among_requests.
  destruct (process_url_requests py_repr urlparse w cfg i pages_url)
    as [-> | [_ [-> | (overdue_docs & slack_message & _ & ->)]]];
    reflexivity.
Qed.

Lemma gets_of_process_urls (w : world) (cfg : settings) (urls : list json) :
  forall i : nat,
  exists k : nat,
    (k <= List.length urls)%nat
    /\ filter is_get (trace (process_urls py_repr urlparse w cfg i urls))
       = map HttpGet (firstn k urls)
    /\ (outcome (process_urls py_repr urlparse w cfg i urls) = Ok tt ->
        k = List.length urls)
    /\ (slack_webhook_url cfg = "" ->
        requests (trace (process_urls py_repr urlparse w cfg i urls))
        = map HttpGet (firstn k urls)).
Proof.
  induction urls as [| u rest IH]; intros i; simpl.
  - exists 0%nat. repeat split; auto.
  - rewrite trace_bind, outcome_bind.
    pose proof (gets_of_process_url w cfg i u) as Hg.
    pose proof (process_url_requests py_repr urlparse w cfg i u) as Hr.
    destruct (outcome (process_url py_repr urlparse w cfg i u)) as [[] | e].
    + destruct (IH (S i)) as (k & Hk & Hgets & Hall & Hreq).
      exists (S k). split; [lia | split; [| split]].
      * rewrite filter_app, Hg, Hgets. reflexivity.
      * intros H. now rewrite (Hall H).
      * intros Hw. rewrite requests_app, (Hreq Hw).
        destruct Hr as [-> | [Hne _]]; [reflexivity | contradiction].
    + exists 1%nat. split; [lia | split; [| split]].
      * rewrite Hg. reflexivity.
      * discriminate.
      * intros Hw. destruct Hr as [-> | [Hne _]]; [reflexivity | contradiction].
Qed.

(** A run fetches the URLs of the page list one by one in the order of
    the list, each once, up to the end of the list or to the URL at which
    an exception leaves the loop; a run that ends normally has fetched
    them all. With no webhook these GETs, after the opening of the page
    list, are all the requests of the run. *)
Theorem main_fetches_the_pages_in_order (w : world) (cfg : settings)
  (fields : list (string * json)) (pages : json) (urls : list json) :
  page_list_file w = FileJson (JObj fields) ->
  dict_get "pages" fields = Some pages ->
  py_iter pages = Ok urls ->
  exists k : nat,
    (k <= List.length urls)%nat
    /\ filter is_get (trace (main py_repr urlparse w cfg))
       = map HttpGet (firstn k urls)
    /\ (outcome (main py_repr urlparse w cfg) = Ok tt ->
        k = List.length urls)
    /\ (slack_webhook_url cfg = "" ->
        requests (trace (main py_repr urlparse w cfg))
        = OpenFile (page_list_filename cfg) :: map HttpGet (firstn k urls)).
Proof.
  intros Hf Hp Hi.
  destruct (gets_of_process_urls w cfg urls 0) as (k & Hk & Hg & Hall & Hr).
  assert (Hmain : main py_repr urlparse w cfg
                  = (OpenFile (page_list_filename cfg)
                     :: trace (process_urls py_repr urlparse w cfg 0 urls),
                     outcome (process_urls py_repr urlparse w cfg 0 urls))).
  { unfold main. rewrite Hf.
    cbn -[process_urls py_iter dict_get]. rewrite Hp.
    cbn -[process_urls py_iter]. rewrite Hi.
    cbn -[process_urls].
    now destruct (process_urls py_repr urlparse w cfg 0 urls). }
  rewrite Hmain. cbn [trace outcome fst snd filter is_get].
  exists k. repeat split; auto.
  intros Hw. cbn. now rewrite <- (Hr Hw).
Qed.

(** A page-list file that is missing, does not hold JSON, or holds
    something other than a dict with a key [pages] ends the run normally
    after a warning: the file is opened and no other request is made. *)
Theorem main_without_a_page_list (w : world) (cfg : settings) :
  page_list_file w <> FileOtherError ->
  (forall (fields : list (string * json)),
      page_list_file w = FileJson (JObj fields) ->
      dict_get "pages" fields = None) ->
  exists t : list event,
    main py_repr urlparse w cfg
    = (OpenFile (page_list_filename cfg) :: t ++ [Log WARNING PagesKeyMissing],
       Ok tt)
    /\ requests t = [].
Proof.
  intros Hother Hnone. unfold main.
  destruct (page_list_file w) as [page_list | | |] eqn:Hf;
    [| | | contradiction].
  - destruct page_list as [| | | | | | fields];
      try (exists []; split; reflexivity).
    exists []. unfold get_json, bind at 1 2, emit, ret.
    rewrite (Hnone fields eq_refl). split; reflexivity.
  - eexists. split; reflexivity.
  - eexists. split; reflexivity.
Qed.

Lemma quiet_process_urls_without_webhook (w : world) (cfg : settings)
  (urls : list json) (i : nat) :
  slack_webhook_url cfg = "" ->
  quiet (process_urls py_repr urlparse w cfg i urls).
Proof.
  intros Hw. unfold quiet. rewrite posts_among_requests.
  destruct (gets_of_process_urls w cfg urls i) as (k & _ & _ & _ & Hr).
  rewrite (Hr Hw). clear. induction (firstn k urls); simpl; auto.
Qed.

(** With the webhook variable unset or empty the whole program never
    posts: notifications are off by default. *)
Theorem no_webhook_no_post (env : environ) (w : world) :
  SLACK_WEBHOOK_URL env = None \/ SLACK_WEBHOOK_URL env = Some "" ->
  existsb is_post (fst (script py_repr urlparse py_int env w)) = false.
Proof.
  intros Hw. unfold script.
  destruct (known_level (getenv (LOG_LEVEL env) "INFO")); [| reflexivity].
  destruct (int_max_docs py_int env) as [n |]; [| reflexivity].
  set (cfg := mk_settings n
                (getenv (PAGE_LIST_FILENAME env) "page-list.json")
                (getenv (SLACK_WEBHOOK_URL env) "")).
  assert (Hcfg : slack_webhook_url cfg = "")
    by (destruct Hw as [E | E]; unfold cfg; rewrite E; reflexivity).
  assert (Hmain : quiet (main py_repr urlparse w cfg)).
  { unfold main. apply quiet_bind.
    - unfold get_json. apply quiet_bind; [now apply quiet_emit | intros _].
      destruct (page_list_file w); try apply quiet_ret;
        try (apply quiet_bind; [now apply quiet_emit | intros; apply quiet_ret]).
      reflexivity.
    - intros [| | | | | | fields]; try now apply quiet_emit.
      destruct (dict_get "pages" fields) as [pages |];
        [| now apply quiet_emit].
      apply quiet_bind; [apply quiet_lift | intros urls].
      now apply quiet_process_urls_without_webhook. }
  unfold quiet in Hmain.
  destruct (main py_repr urlparse w cfg) as [t [[] | e]]; exact Hmain.
Qed.

End RunOfThePages.

Lemma the_log_after_a_post_witness :
  exists (before : list event) (slack_message : json),
    trace (process_url sample_repr sample_urlparse failing_world
             (settings_with 2) 7 (JStr "http://a.test/7"))
    = before ++ [HttpPost "https://hooks.test/T000" slack_message].
Proof.
  destruct (the_log_after_a_post sample_repr sample_urlparse failing_world
              (settings_with 2) 7 (JStr "http://a.test/7"))
    as (before & slack_message & Ht & _).
  - vm_compute. reflexivity.
  - exists before, slack_message. rewrite Ht. reflexivity.
Defined.

Lemma main_fetches_the_pages_in_order_witness :
  exists k : nat,
    filter is_get (trace (main sample_repr sample_urlparse
                            (sample_world (JArr [JInt 1]) sample_template)
                            (settings_with 3)))
    = map HttpGet (firstn k [JStr "http://a.test/inv"]).
Proof.
  destruct (main_fetches_the_pages_in_order sample_repr sample_urlparse
              (sample_world (JArr [JInt 1]) sample_template) (settings_with 3)
              [("pages", JArr [JStr "http://a.test/inv"])]
              (JArr [JStr "http://a.test/inv"]) [JStr "http://a.test/inv"])
    as (k & _ & Hg & _); try reflexivity.
  now exists k.
Defined.

Lemma main_without_a_page_list_witness :
  exists t : list event,
    main sample_repr sample_urlparse (world_answering GetRaised)
      (settings_with 3)
    = (OpenFile "page-list.json" :: t ++ [Log WARNING PagesKeyMissing], Ok tt).
Proof.
  destruct (main_without_a_page_list sample_repr sample_urlparse
              (world_answering GetRaised) (settings_with 3))
    as (t & Ht & _).
  - discriminate.
  - intros fields H. discriminate.
  - now exists t.
Defined.

Lemma no_webhook_no_post_witness :
  existsb is_post
    (fst (script sample_repr sample_urlparse sample_int
            (mk_environ None (Some "3") None None)
            (sample_world sample_inventory sample_template))) = false.
Proof.
  apply (no_webhook_no_post sample_repr sample_urlparse sample_int
           (mk_environ None (Some "3") None None)).
  left. reflexivity.
Defined.

Lemma selector_warns_on_unparseable_dates_witness :
  trace (get_out_of_date_docs (settings_with 3) sample_clock
           (JArr (map JObj sample_records)))
  = [Log WARNING (CouldNotParseReviewAgain (JStr "next week") (JStr "e.html"))]
  /\ date_warning (record "E" "e.html" "next week") <> [].
Proof.
  destruct (selector_warns_on_unparseable_dates (settings_with 3) sample_clock
              sample_records) as [Ht Hw].
  split.
  - rewrite Ht. reflexivity.
  - apply Hw. repeat split.
Defined.

(* ------------------------------------------------------------------ *)
(** ** Inputs already in order, and stores made twice *)

Lemma sort_desc_of_descending (l : list entry) :
  descending l -> sort_desc l = l.
Proof.
  unfold descending. induction l as [| e rest IH]; intros H; [reflexivity |].
  inversion H as [| ? ? Hrest Hall]; subst. simpl. rewrite (IH Hrest).
  destruct rest as [| x rest']; [reflexivity |]. simpl.
  inversion Hall as [| ? ? Hx _]; subst.
  destruct (days_overdue e <? days_overdue x) eqn:E; [| reflexivity].
  apply Z.ltb_lt in E. lia.
Qed.

Lemma firstn_prefix {A : Type} (n : nat) (l : list A) : prefix (firstn n l) l.
Proof.
  revert l. induction n as [| n IH]; intros [| x l]; simpl; constructor.
  apply IH.
Qed.

(** When the qualifying records already come most overdue first, the
    selector returns their entries in input order: all of them with no
    bound, the first ones with a bound. *)
Theorem selector_keeps_a_sorted_input (cfg : settings)
  (now_at : nat -> datetime) (records : list (list (string * json))) :
  descending (qualifying now_at 0 records) ->
  exists out : list entry,
    outcome (get_out_of_date_docs cfg now_at (JArr (map JObj records)))
    = Ok out
    /\ prefix out (qualifying now_at 0 records)
    /\ (max_docs cfg <= 0 -> out = qualifying now_at 0 records).
Proof.
  intros Hd. rewrite selector_on_records. cbv zeta.
  rewrite (sort_desc_of_descending _ Hd).
  eexists. split; [reflexivity | split].
  - destruct (selector_slice (max_docs cfg) (qualifying now_at 0 records))
      as [c ->].
    apply firstn_prefix.
  - intros Hmax. destruct (max_docs cfg >? 0) eqn:E; [lia |].
    apply slice_to_length.
Qed.

Lemma selector_keeps_a_sorted_input_witness :
  exists out : list entry,
    outcome (get_out_of_date_docs (settings_with 0) sample_clock
               (JArr (map JObj [record "C" "c.html" "2023-03-15";
                                record "A" "a.html" "2024-03-10";
                                record "D" "d.html" "2024-03-10"]))) = Ok out
    /\ prefix out [mk_entry (JStr "C") (JStr "c.html") 366;
                   mk_entry (JStr "A") (JStr "a.html") 5;
                   mk_entry (JStr "D") (JStr "d.html") 5].
Proof.
  destruct (selector_keeps_a_sorted_input (settings_with 0) sample_clock
              [record "C" "c.html" "2023-03-15";
               record "A" "a.html" "2024-03-10";
               record "D" "d.html" "2024-03-10"])
    as (out & Hout & Hp & _).
  - vm_compute. repeat constructor; vm_compute; discriminate.
  - exists out. split; [exact Hout | exact Hp].
Defined.

Lemma dict_set_twice (k : string) (v v' : json) (d : list (string * json)) :
  dict_set k v (dict_set k v' d) = dict_set k v d.
Proof.
  induction d as [| [k' x] rest IH]; simpl.
  - now rewrite String.eqb_refl.
  - destruct (String.eqb k k') eqn:E; simpl; rewrite E;
      [reflexivity | now rewrite IH].
Qed.

Lemma list_set_twice {A : Type} (j : nat) (x y : A) (l : list A) :
  list_set j x (list_set j y l) = list_set j x l.
Proof.
  revert j. induction l as [| z rest IH]; intros [| j]; simpl;
    try reflexivity.
  now rewrite IH.
Qed.

(** Of two stores to the same block the last one wins: after a store has
    gone through, a second store whose index names the same block leaves
    the template as if it had been the only one. This is why, when two of
    the three indices of the builder name one block, that block shows the
    later text. *)
Theorem the_last_store_wins (i i' : Z) (first second : string)
  (template stored : json) (n : nat) :
  assign_text i first template = Ok stored ->
  block_count template = Some n ->
  norm_index i' n = norm_index i n ->
  assign_text i' second stored = assign_text i' second template
  /\ exists message : json, assign_text i' second template = Ok message.
Proof.
  intros H Hc Hsame.
  destruct (assign_text_inversion _ _ _ _ H)
    as (tf & blocks & j & bf & inner & -> & Hb & Hn & Hj & Ht & ->).
  unfold block_count in Hc. rewrite Hb in Hc. injection Hc as <-.
  rewrite Hn in Hsame.
  pose proof (norm_index_bound _ _ _ Hn) as Hlt.
  rewrite (assign_text_succeeds i' second tf blocks j bf inner Hb Hsame Hj Ht).
  split; [| eexists; reflexivity].
  rewrite (assign_text_succeeds i' second
             (dict_set "blocks"
                (JArr (list_set j
                         (JObj (dict_set "text"
                                  (JObj (dict_set "text" (JStr first) inner))
                                  bf))
                         blocks)) tf)
             (list_set j
                (JObj (dict_set "text"
                         (JObj (dict_set "text" (JStr first) inner)) bf))
                blocks)
             j
             (dict_set "text" (JObj (dict_set "text" (JStr first) inner)) bf)
             (dict_set "text" (JStr first) inner)).
  - now rewrite !dict_set_twice, list_set_twice.
  - apply dict_get_set_same.
  - now rewrite list_set_length.
  - now apply nth_error_list_set_same.
  - apply dict_get_set_same.
Qed.

Lemma the_last_store_wins_witness :
  exists message : json,
    assign_text (-2) "list" two_block_template = Ok message.
Proof.
  destruct (the_last_store_wins 0 (-2) "greeting" "list" two_block_template
              (JObj [("blocks",
                      JArr [text_block "header" "greeting";
                            text_block "section" "heading"])]) 2)
    as [_ [message Hm]].
  - reflexivity.
  - reflexivity.
  - reflexivity.
  - exists message. exact Hm.
Defined.
